(** * ValutaTrade Hub: the rates engine

    A shallow embedding of the exchange-rate subsystem of the wallet
    application: the currency registry ([core/currencies.py]), the rate
    store ([parser_service/storage.py]), the two source clients
    ([parser_service/api_clients.py]), the updater
    ([parser_service/updater.py]) and the resolver
    ([PortfolioManager.get_rate] in [core/usecases.py]).

    Python values that come out of [json.load] are untyped, so they are
    modelled by one inductive type of values; dictionaries keep their
    insertion order; rates are IEEE binary64 numbers, as Python floats
    are.  Code that raises is modelled in an exception monad that threads
    the outside world (files, clock, I/O trace); a raised exception keeps
    the world as it was left, as in Python. *)

From Stdlib Require Import Floats String Ascii List Bool Arith Lia.
Import ListNotations.
Open Scope string_scope.
Set Warnings "-register-all,-inexact-float".

(* ================================================================== *)
(** ** Python values *)

(** The values [json.load] can produce.  A JSON integer is carried as the
    float it denotes. *)
Inductive pyval : Type :=
| PNone
| PBool (b : bool)
| PFloat (x : float)
| PStr (s : string)
| PList (l : list pyval)
| PDict (d : list (string * pyval)).

(** A [dict] with string keys, in insertion order. *)
Definition dict (V : Type) : Type := list (string * V).

Fixpoint dict_get {V} (k : string) (d : dict V) : option V :=
  match d with
  | [] => None
  | (k', v) :: d' => if String.eqb k k' then Some v else dict_get k d'
  end.

Definition dict_mem {V} (k : string) (d : dict V) : bool :=
  match dict_get k d with Some _ => true | None => false end.

(** [d[k] = v]: an existing key keeps its position, a new one goes last. *)
Fixpoint dict_set {V} (k : string) (v : V) (d : dict V) : dict V :=
  match d with
  | [] => [(k, v)]
  | (k', v') :: d' =>
      if String.eqb k k' then (k', v) :: d' else (k', v') :: dict_set k v d'
  end.

(** [d.update(other)] *)
Definition dict_update {V} (d other : dict V) : dict V :=
  fold_left (fun acc kv => dict_set (fst kv) (snd kv) acc) other d.

(** ** Exceptions *)

(** The exceptions of the two [exceptions.py] modules and the built-in ones
    the modelled code can meet.  [FailedToGetRate e] stands for
    [core.ApiRequestError(f"Failed to get rate: {str(e)}")], and
    [RateNotFound f t] for
    [core.ApiRequestError(f"Rate for pair {f}/{t} not found")]. *)
Inductive exn : Type :=
| CurrencyNotFoundError (currency_code : string)
| ApiRequestError (reason : string)
| RateNotFound (from_code to_code : string)
| FailedToGetRate (cause : exn)
| FetchError (source reason : string)   (* parser_service.ApiRequestError *)
| KeyError (key : string)
| TypeError
| AttributeError
| ValueError
| ZeroDivisionError
| JSONDecodeError
| OSError
| UnboundLocalError.

Inductive res (A : Type) : Type :=
| Ok (a : A)
| Raise (e : exn).
Arguments Ok {A} a.
Arguments Raise {A} e.

Definition res_bind {A B} (r : res A) (k : A -> res B) : res B :=
  match r with Ok a => k a | Raise e => Raise e end.

(** ** Operations of Python on these values *)

Definition is_zero (x : float) : bool := PrimFloat.eqb x 0%float.

(** [bool(v)] *)
Definition truthy (v : pyval) : bool :=
  match v with
  | PNone => false
  | PBool b => b
  | PFloat x => negb (is_zero x)
  | PStr s => negb (String.eqb s "")
  | PList l => match l with [] => false | _ => true end
  | PDict d => match d with [] => false | _ => true end
  end.

Definition is_str (k : string) (v : pyval) : bool :=
  match v with PStr s => String.eqb s k | _ => false end.

Definition is_substring (k s : string) : bool :=
  match String.index 0 k s with Some _ => true | None => false end.

(** [k in v] for a string [k] *)
Definition py_in (k : string) (v : pyval) : res bool :=
  match v with
  | PDict d => Ok (dict_mem k d)
  | PList l => Ok (existsb (is_str k) l)
  | PStr s => Ok (is_substring k s)
  | _ => Raise TypeError
  end.

(** [v[k]] for a string [k] *)
Definition py_getitem (v : pyval) (k : string) : res pyval :=
  match v with
  | PDict d => match dict_get k d with Some x => Ok x | None => Raise (KeyError k) end
  | _ => Raise TypeError
  end.

(** [v.get(k, default)] *)
Definition py_get (v : pyval) (k : string) (default : pyval) : res pyval :=
  match v with
  | PDict d => match dict_get k d with Some x => Ok x | None => Ok default end
  | _ => Raise AttributeError
  end.

(** [len(v)] *)
Definition py_len (v : pyval) : res nat :=
  match v with
  | PDict d => Ok (List.length d)
  | PList l => Ok (List.length l)
  | PStr s => Ok (String.length s)
  | _ => Raise TypeError
  end.

Definition as_number (v : pyval) : option float :=
  match v with
  | PFloat x => Some x
  | PBool true => Some 1%float
  | PBool false => Some 0%float
  | _ => None
  end.

(** [a / b]: true division, which raises on a zero divisor *)
Definition py_div (a b : pyval) : res pyval :=
  match as_number a, as_number b with
  | Some x, Some y =>
      if is_zero y then Raise ZeroDivisionError else Ok (PFloat (x / y)%float)
  | _, _ => Raise TypeError
  end.

(** [float(v)]; [of_str] is Python's reading of a string as a float *)
Definition py_float (of_str : string -> option float) (v : pyval) : res float :=
  match v with
  | PFloat x => Ok x
  | PBool true => Ok 1%float
  | PBool false => Ok 0%float
  | PStr s => match of_str s with Some x => Ok x | None => Raise ValueError end
  | _ => Raise TypeError
  end.

Definition upper_ascii (c : ascii) : ascii :=
  let n := nat_of_ascii c in
  if Nat.leb 97 n && Nat.leb n 122 then ascii_of_nat (n - 32) else c.

(** [s.upper()], on ASCII text *)
Fixpoint upper (s : string) : string :=
  match s with
  | EmptyString => EmptyString
  | String c s' => String (upper_ascii c) (upper s')
  end.

(** [s.split(sep)] for a one-character separator: [cur] is the piece being
    read. *)
Fixpoint split_go (sep : ascii) (s : string) (cur : string) : list string :=
  match s with
  | EmptyString => [cur]
  | String c s' =>
      if Ascii.eqb c sep then cur :: split_go sep s' ""
      else split_go sep s' (cur ++ String c "")
  end.

Definition split (sep : ascii) (s : string) : list string := split_go sep s "".

(** [", ".join]-style joining *)
Fixpoint join (sep : string) (l : list string) : string :=
  match l with
  | [] => ""
  | [x] => x
  | x :: l' => x ++ sep ++ join sep l'
  end.

(* ================================================================== *)
(** ** The outside world *)

(** What a file holds: text on which [json.load] raises, or a document. *)
Inductive content : Type :=
| Garbled (text : string)
| Doc (v : pyval).

Inductive io_event : Type :=
| EvMakedirs (for_path : string)
| EvExists (path : string)
| EvOpenRead (path : string)
| EvTmpCreate (for_path : string)
| EvReplace (path : string)
| EvUnlinkTmp
| EvHttpGet (url : string) (params : dict string).

(** Where an atomic write is made to fail, if anywhere. *)
Inductive write_fault : Type :=
| NoFault
| FailCreate     (* NamedTemporaryFile raises *)
| FailDump       (* json.dump raises *)
| FailReplace.   (* os.replace raises *)

Record world : Type := mkWorld {
  disk : dict content;            (* the files, by path *)
  io_log : list io_event;         (* file and network accesses, oldest first *)
  faults : list write_fault;      (* one per atomic write still to come *)
  stray_tmp : nat;                (* temporary files left behind *)
  ticks : nat;                    (* calls of datetime.now so far *)
  successful_sources : nat;       (* RatesUpdater.successful_sources *)
  total_rates : nat               (* RatesUpdater.total_rates *)
}.

Definition set_disk (d : dict content) (w : world) : world :=
  mkWorld d (io_log w) (faults w) (stray_tmp w) (ticks w)
          (successful_sources w) (total_rates w).
Definition log_event (e : io_event) (w : world) : world :=
  mkWorld (disk w) (io_log w ++ [e]) (faults w) (stray_tmp w) (ticks w)
          (successful_sources w) (total_rates w).
Definition set_faults (f : list write_fault) (w : world) : world :=
  mkWorld (disk w) (io_log w) f (stray_tmp w) (ticks w)
          (successful_sources w) (total_rates w).
Definition set_stray_tmp (n : nat) (w : world) : world :=
  mkWorld (disk w) (io_log w) (faults w) n (ticks w)
          (successful_sources w) (total_rates w).
Definition set_ticks (n : nat) (w : world) : world :=
  mkWorld (disk w) (io_log w) (faults w) (stray_tmp w) n
          (successful_sources w) (total_rates w).
Definition set_successful_sources (n : nat) (w : world) : world :=
  mkWorld (disk w) (io_log w) (faults w) (stray_tmp w) (ticks w) n (total_rates w).
Definition set_total_rates (n : nat) (w : world) : world :=
  mkWorld (disk w) (io_log w) (faults w) (stray_tmp w) (ticks w)
          (successful_sources w) n.

(** ** The monad of the modelled code *)

Definition M (A : Type) : Type := world -> res A * world.

Definition ret {A} (a : A) : M A := fun w => (Ok a, w).
Definition raise {A} (e : exn) : M A := fun w => (Raise e, w).
Definition bind {A B} (m : M A) (k : A -> M B) : M B :=
  fun w => match m w with
           | (Ok a, w') => k a w'
           | (Raise e, w') => (Raise e, w')
           end.
Definition lift {A} (r : res A) : M A := fun w => (r, w).

(** [try: m  except Exception as e: h e] *)
Definition try_except {A} (m : M A) (h : exn -> M A) : M A :=
  fun w => match m w with
           | (Ok a, w') => (Ok a, w')
           | (Raise e, w') => h e w'
           end.

Definition get_world : M world := fun w => (Ok w, w).
Definition modify (f : world -> world) : M unit := fun w => (Ok tt, f w).

Declare Scope py_scope.
Delimit Scope py_scope with py.
Notation "x <- m ;; k" := (bind m (fun x => k))
  (at level 100, m at next level, right associativity) : py_scope.
Notation "x <~ r ;; k" := (bind (lift r) (fun x => k))
  (at level 100, r at next level, right associativity) : py_scope.
Notation "m ;;; k" := (bind m (fun _ => k))
  (at level 100, right associativity) : py_scope.
Open Scope py_scope.

(** [os.path.exists(path)] *)
Definition path_exists (path : string) : M bool :=
  w <- get_world ;;
  modify (log_event (EvExists path)) ;;;
  ret (dict_mem path (disk w)).

(** [with open(path) as f: json.load(f)] *)
Definition open_json_load (path : string) : M pyval :=
  w <- get_world ;;
  modify (log_event (EvOpenRead path)) ;;;
  match dict_get path (disk w) with
  | None => raise OSError
  | Some (Garbled _) => raise JSONDecodeError
  | Some (Doc v) => ret v
  end.

(* ================================================================== *)
(** ** core/currencies.py *)

(** The keys of [_currency_registry] after [_initialize_currencies]. *)
Definition initial_registry : list string := ["USD"; "EUR"; "RUB"; "BTC"; "ETH"].

Definition registry_keys (registry : list string) : list string :=
  match registry with [] => initial_registry | _ => registry end.

Definition is_registered (registry : list string) (code : string) : bool :=
  existsb (String.eqb (upper code)) (registry_keys registry).

(** [get_currency]: the found currency is represented by its registry key. *)
Definition get_currency (registry : list string) (code : string) : res string :=
  let code_upper := upper code in
  if is_registered registry code then Ok code_upper
  else Raise (CurrencyNotFoundError code_upper).

(* ================================================================== *)
(** ** parser_service/config.py *)

Record ParserConfig : Type := mkConfig {
  EXCHANGERATE_API_KEY : string;
  COINGECKO_URL : string;
  EXCHANGERATE_API_URL : string;
  BASE_CURRENCY : string;
  FIAT_CURRENCIES : list string;
  CRYPTO_CURRENCIES : list string;
  CRYPTO_ID_MAP : dict string;
  RATES_FILE_PATH : string;
  HISTORY_FILE_PATH : string
}.

Definition config : ParserConfig := {|
  EXCHANGERATE_API_KEY := "46756b26226a3a722cc8c74f";
  COINGECKO_URL := "https://api.coingecko.com/api/v3/simple/price";
  EXCHANGERATE_API_URL := "https://v6.exchangerate-api.com/v6";
  BASE_CURRENCY := "USD";
  FIAT_CURRENCIES := ["EUR"; "GBP"; "RUB"];
  CRYPTO_CURRENCIES := ["BTC"; "ETH"; "SOL"];
  CRYPTO_ID_MAP := [("BTC", "bitcoin"); ("ETH", "ethereum"); ("SOL", "solana")];
  RATES_FILE_PATH := "data/rates.json";
  HISTORY_FILE_PATH := "data/exchange_rates.json"
|}.

(** The key of a pair in the snapshot: ["{FROM}_{TO}"]. *)
Definition pair_key (a b : string) : string := a ++ "_" ++ b.

(* ================================================================== *)
(** ** What the program is given from outside *)

(** What [requests.get(...)], [raise_for_status()] and [response.json()]
    do for one request. *)
Inductive http_outcome : Type :=
| RequestFails (reason : string)   (* a requests.exceptions.RequestException *)
| OtherFailure (e : exn)           (* any other exception *)
| Replies (body : pyval).

(** A [datetime], by the two renderings the code asks of it:
    [isoformat()] and [strftime('%Y-%m-%dT%H:%M:%SZ')]. *)
Record datetime : Type := mkDatetime {
  isoformat : string;
  strftime_seconds : string
}.

Record environment : Type := mkEnv {
  http_get : string -> dict string -> http_outcome;
  utcnow : nat -> datetime;        (* the n-th reading of the clock *)
  float_of_str : string -> option float
}.

(** [datetime.now(timezone.utc)] *)
Definition now (env : environment) : M datetime :=
  w <- get_world ;;
  modify (set_ticks (S (ticks w))) ;;;
  ret (utcnow env (ticks w)).

(** [try: m  except E as e: h1 e  except Exception as e: h2 e], where
    [is_E] tells the exceptions of class [E]. *)
Definition try_except2 {A} (m : M A) (is_E : exn -> bool)
    (h1 h2 : exn -> M A) : M A :=
  fun w => match m w with
           | (Ok a, w') => (Ok a, w')
           | (Raise e, w') => if is_E e then h1 e w' else h2 e w'
           end.

Definition is_FetchError (e : exn) : bool :=
  match e with FetchError _ _ => true | _ => false end.

(** [for x in l: acc = body acc x], in the two monads *)
Fixpoint res_for {A B} (l : list A) (acc : B) (body : B -> A -> res B) : res B :=
  match l with
  | [] => Ok acc
  | x :: l' => res_bind (body acc x) (fun acc' => res_for l' acc' body)
  end.

Fixpoint M_for {A B} (l : list A) (acc : B) (body : B -> A -> M B) : M B :=
  match l with
  | [] => ret acc
  | x :: l' => acc' <- body acc x ;; M_for l' acc' body
  end.

(* ================================================================== *)
(** ** parser_service/api_clients.py *)

Section Api_clients.
Variable env : environment.
Variable cfg : ParserConfig.

(** [BaseApiClient._make_request]; [class_name] is
    [self.__class__.__name__]. *)
Definition _make_request (class_name url : string) (params : dict string)
  : M pyval :=
  modify (log_event (EvHttpGet url params)) ;;;
  match http_get env url params with
  | Replies body => ret body
  | RequestFails reason => raise (FetchError class_name reason)
  | OtherFailure e => raise e
  end.

(** [CoinGeckoClient._parse_response] *)
Definition CoinGecko_parse_response (data : pyval) : res (dict float) :=
  res_for (CRYPTO_ID_MAP cfg) [] (fun rates item =>
    let crypto_code := fst item in
    let gecko_id := snd item in
    res_bind (py_in gecko_id data) (fun listed =>
    res_bind (if listed
              then res_bind (py_getitem data gecko_id) (py_in "usd")
              else Ok false) (fun quoted =>
    if quoted then
      res_bind (py_getitem data gecko_id) (fun prices =>
      res_bind (py_getitem prices "usd") (fun r =>
      res_bind (py_float (float_of_str env) r) (fun x =>
      Ok (dict_set (pair_key crypto_code (BASE_CURRENCY cfg)) x rates))))
    else Ok rates))).

(** The comprehension that builds [crypto_ids]. *)
Definition crypto_ids : list string :=
  flat_map (fun code => match dict_get code (CRYPTO_ID_MAP cfg) with
                        | Some id => [id]
                        | None => []
                        end)
           (CRYPTO_CURRENCIES cfg).

Definition CoinGecko_params : dict string :=
  [("ids", join "," crypto_ids); ("vs_currencies", "usd")].

(** [CoinGeckoClient.fetch_rates]: the handler logs and re-raises. *)
Definition CoinGecko_fetch_rates : M (dict float) :=
  match crypto_ids with
  | [] => ret []
  | _ =>
      try_except2
        (data <- _make_request "CoinGeckoClient" (COINGECKO_URL cfg)
                               CoinGecko_params ;;
         lift (CoinGecko_parse_response data))
        is_FetchError
        (fun e => raise e)
        (fun e => raise e)
  end.

(** The table inside [_get_fallback_rates]. *)
Definition fallback_rates : dict float :=
  [("EUR_USD", 0.93%float); ("GBP_USD", 0.79%float); ("RUB_USD", 0.011%float)].

(** [ExchangeRateApiClient._get_fallback_rates] *)
Definition _get_fallback_rates : dict float :=
  fold_left (fun rates currency =>
               let key := pair_key currency (BASE_CURRENCY cfg) in
               match dict_get key fallback_rates with
               | Some x => dict_set key x rates
               | None => rates
               end)
            (FIAT_CURRENCIES cfg) [].

(** [ExchangeRateApiClient._parse_response] *)
Definition ExchangeRate_parse_response (data : pyval) : res (dict float) :=
  res_bind (py_get data "result" PNone) (fun result =>
  if negb (is_str "success" result) then Ok _get_fallback_rates
  else
    res_bind (py_get data "conversion_rates" (PDict [])) (fun base_rates =>
    res_bind (py_len base_rates) (fun _ =>
    res_for (FIAT_CURRENCIES cfg) [] (fun rates currency =>
      res_bind (py_in currency base_rates) (fun listed =>
      if listed then
        res_bind (py_getitem base_rates currency) (fun r =>
        res_bind (py_float (float_of_str env) r) (fun x =>
        Ok (dict_set (pair_key currency (BASE_CURRENCY cfg)) x rates)))
      else Ok rates))))).

Definition ExchangeRate_url : string :=
  EXCHANGERATE_API_URL cfg ++ "/" ++ EXCHANGERATE_API_KEY cfg
    ++ "/latest/" ++ BASE_CURRENCY cfg.

(** [ExchangeRateApiClient.fetch_rates] *)
Definition ExchangeRate_fetch_rates : M (dict float) :=
  if negb (truthy (PStr (EXCHANGERATE_API_KEY cfg))) then ret _get_fallback_rates
  else
    try_except2
      (data <- _make_request "ExchangeRateApiClient" ExchangeRate_url [] ;;
       rates_data <~ py_get data "conversion_rates" (PDict []) ;;
       if negb (truthy rates_data) then ret _get_fallback_rates
       else lift (ExchangeRate_parse_response data))
      is_FetchError
      (fun _ => ret _get_fallback_rates)
      (fun _ => ret _get_fallback_rates).

End Api_clients.

(* ================================================================== *)
(** ** parser_service/storage.py *)

Section Storage.
Variable env : environment.
Variable cfg : ParserConfig.

(** [RatesStorage.__init__] *)
Definition RatesStorage_init : M unit :=
  modify (log_event (EvMakedirs (RATES_FILE_PATH cfg))) ;;;
  modify (log_event (EvMakedirs (HISTORY_FILE_PATH cfg))).

(** [RatesStorage._atomic_write].  When the temporary file cannot be made,
    or [json.dump] raises, [tmp_path] was never assigned and the handler's
    [os.path.exists(tmp_path)] raises in its turn; in the second case the
    temporary file stays. *)
Definition _atomic_write (file_path : string) (data : pyval) : M unit :=
  w <- get_world ;;
  modify (set_faults (tl (faults w))) ;;;
  modify (log_event (EvTmpCreate file_path)) ;;;
  match hd NoFault (faults w) with
  | FailCreate => raise UnboundLocalError
  | FailDump =>
      modify (set_stray_tmp (S (stray_tmp w))) ;;;
      raise UnboundLocalError
  | FailReplace =>
      modify (log_event (EvReplace file_path)) ;;;
      modify (log_event EvUnlinkTmp) ;;;
      raise OSError
  | NoFault =>
      modify (log_event (EvReplace file_path)) ;;;
      modify (set_disk (dict_set file_path (Doc data) (disk w)))
  end.

(** [RatesStorage.save_current_rates]: the handler logs and re-raises. *)
Definition save_current_rates (rates_data : dict pyval) : M unit :=
  try_except
    (_atomic_write (RATES_FILE_PATH cfg) (PDict rates_data) ;;;
     _ <~ res_bind (py_get (PDict rates_data) "pairs" (PDict [])) py_len ;;
     ret tt)
    (fun e => raise e).

(** [RatesStorage._load_history] *)
Definition _load_history : M pyval :=
  present <- path_exists (HISTORY_FILE_PATH cfg) ;;
  if negb present then ret (PList [])
  else try_except (open_json_load (HISTORY_FILE_PATH cfg))
                  (fun _ => ret (PList [])).

(** [history.append(record)] *)
Definition py_append (history record : pyval) : res pyval :=
  match history with
  | PList l => Ok (PList (l ++ [record]))
  | _ => Raise AttributeError
  end.

(** [RatesStorage.save_historical_record]: the handler logs and re-raises. *)
Definition save_historical_record (record : dict pyval) : M unit :=
  try_except
    (history <- _load_history ;;
     history' <~ py_append history (PDict record) ;;
     _atomic_write (HISTORY_FILE_PATH cfg) history' ;;;
     _ <~ py_get (PDict record) "id" PNone ;;
     ret tt)
    (fun e => raise e).

(** [RatesStorage.read_current_rates] *)
Definition read_current_rates : M pyval :=
  present <- path_exists (RATES_FILE_PATH cfg) ;;
  if negb present then ret (PDict [])
  else try_except (open_json_load (RATES_FILE_PATH cfg))
                  (fun _ => ret (PDict [])).

(** [create_historical_record] *)
Definition create_historical_record (from_currency to_currency : string)
    (r : float) (source : string) (meta : pyval) : M (dict pyval) :=
  timestamp <- now env ;;
  let record_id :=
    from_currency ++ "_" ++ to_currency ++ "_" ++ strftime_seconds timestamp in
  ret [("id", PStr record_id);
       ("from_currency", PStr (upper from_currency));
       ("to_currency", PStr (upper to_currency));
       ("rate", PFloat r);
       ("timestamp", PStr (isoformat timestamp));
       ("source", PStr source);
       ("meta", if truthy meta then meta else PDict [])].

End Storage.

(* ================================================================== *)
(** ** parser_service/updater.py *)

Section Updater.
Variable env : environment.
Variable cfg : ParserConfig.

(** [RatesUpdater._fetch_from_coingecko] *)
Definition _fetch_from_coingecko : M (dict float) :=
  try_except2
    (rates <- CoinGecko_fetch_rates env cfg ;;
     w <- get_world ;;
     modify (set_total_rates (total_rates w + List.length rates)) ;;;
     ret rates)
    is_FetchError
    (fun _ => ret [])
    (fun _ => ret []).

(** [RatesUpdater._fetch_from_exchangerate] *)
Definition _fetch_from_exchangerate : M (dict float) :=
  try_except2
    (rates <- ExchangeRate_fetch_rates env cfg ;;
     w <- get_world ;;
     modify (set_total_rates (total_rates w + List.length rates)) ;;;
     ret rates)
    is_FetchError
    (fun _ => ret [])
    (fun _ => ret []).

(** [from_currency, to_currency = pair_key.split('_')] *)
Definition unpack_pair (key : string) : res (string * string) :=
  match split "_"%char key with
  | [a; b] => Ok (a, b)
  | _ => Raise ValueError
  end.

(** The source a pair is attributed to. *)
Definition source_of (from_currency : string) : string :=
  if existsb (String.eqb from_currency) (map upper (CRYPTO_CURRENCIES cfg))
  then "CoinGecko" else "ExchangeRate-API".

(** [RatesUpdater._prepare_rates_data] *)
Definition _prepare_rates_data (all_rates : dict float) : M (dict pyval) :=
  pairs <- M_for all_rates [] (fun pairs item =>
    let key := fst item in
    let r := snd item in
    ft <~ unpack_pair key ;;
    stamp <- now env ;;
    ret (dict_set key
           (PDict [("rate", PFloat r);
                   ("updated_at", PStr (isoformat stamp));
                   ("source", PStr (source_of (fst ft)))])
           pairs)) ;;
  stamp <- now env ;;
  ret [("pairs", PDict pairs); ("last_refresh", PStr (isoformat stamp))].

(** [RatesUpdater._save_historical_records] *)
Definition _save_historical_records (all_rates : dict float) : M unit :=
  M_for all_rates tt (fun _ item =>
    let key := fst item in
    let r := snd item in
    ft <~ unpack_pair key ;;
    record <- create_historical_record env (fst ft) (snd ft) r
                (source_of (fst ft)) (PDict [("raw_pair", PStr key)]) ;;
    try_except (save_historical_record cfg record) (fun _ => ret tt)).

(** The [try] block of [run_update]. *)
Definition run_update_try : M bool :=
  crypto_rates <- _fetch_from_coingecko ;;
  all_rates <-
    (match crypto_rates with
     | [] => ret []
     | _ =>
         w <- get_world ;;
         modify (set_successful_sources (successful_sources w + 1)) ;;;
         ret (dict_update [] crypto_rates)
     end) ;;
  fiat_rates <- _fetch_from_exchangerate ;;
  all_rates <-
    (match fiat_rates with
     | [] => ret all_rates
     | _ =>
         w <- get_world ;;
         modify (set_successful_sources (successful_sources w + 1)) ;;;
         ret (dict_update all_rates fiat_rates)
     end) ;;
  match all_rates with
  | [] => ret false
  | _ =>
      rates_data <- _prepare_rates_data all_rates ;;
      save_current_rates cfg rates_data ;;;
      _save_historical_records all_rates ;;;
      ret true
  end.

(** [RatesUpdater.run_update] *)
Definition run_update : M bool :=
  modify (set_successful_sources 0) ;;;
  modify (set_total_rates 0) ;;;
  try_except run_update_try (fun _ => ret false).

End Updater.

(* ================================================================== *)
(** ** core/usecases.py: PortfolioManager.get_rate *)

(** The dictionary [{'rate': ..., 'updated_at': ...}] that [get_rate]
    returns. *)
Record rate_info : Type := mkRate { rate : pyval; updated_at : pyval }.

Section Resolver.
Variable registry : list string.
Variable cfg : ParserConfig.

(** The part of [get_rate] after the snapshot is read and found usable
    and the two codes differ: direct pair, reverse pair, then through
    USD. *)
Definition get_rate_lookup (rates_data : pyval) (from_code to_code : string)
  : res rate_info :=
  let direct_pair := pair_key from_code to_code in
  let reverse_pair := pair_key to_code from_code in
  res_bind (py_getitem rates_data "pairs") (fun pairs =>
  res_bind (py_in direct_pair pairs) (fun has_direct =>
  if has_direct then
    res_bind (py_getitem pairs direct_pair) (fun entry =>
    res_bind (py_getitem entry "rate") (fun r =>
    res_bind (py_getitem entry "updated_at") (fun u =>
    Ok (mkRate r u))))
  else
  res_bind (py_in reverse_pair pairs) (fun has_reverse =>
  if has_reverse then
    res_bind (py_getitem pairs reverse_pair) (fun entry =>
    res_bind (py_getitem entry "rate") (fun r =>
    res_bind (py_div (PFloat 1%float) r) (fun inv =>
    res_bind (py_getitem entry "updated_at") (fun u =>
    Ok (mkRate inv u)))))
  else
  let from_usd_pair := pair_key from_code "USD" in
  let to_usd_pair := pair_key to_code "USD" in
  let usd_from_pair := pair_key "USD" from_code in
  let usd_to_pair := pair_key "USD" to_code in
  (* Get from_rate *)
  res_bind
    (res_bind (py_in from_usd_pair pairs) (fun b =>
     if b then
       res_bind (py_getitem pairs from_usd_pair) (fun e => py_getitem e "rate")
     else
       res_bind (py_in usd_from_pair pairs) (fun b' =>
       if b' then
         res_bind (py_getitem pairs usd_from_pair) (fun e =>
         res_bind (py_getitem e "rate") (fun r =>
         py_div (PFloat 1%float) r))
       else Ok PNone)))
    (fun from_rate =>
  (* Get to_rate *)
  res_bind
    (res_bind (py_in to_usd_pair pairs) (fun b =>
     if b then
       res_bind (py_getitem pairs to_usd_pair) (fun e => py_getitem e "rate")
     else
       res_bind (py_in usd_to_pair pairs) (fun b' =>
       if b' then
         res_bind (py_getitem pairs usd_to_pair) (fun e =>
         res_bind (py_getitem e "rate") (fun r =>
         py_div (PFloat 1%float) r))
       else Ok PNone)))
    (fun to_rate =>
  if truthy from_rate && truthy to_rate then
    res_bind (py_div to_rate from_rate) (fun calculated_rate =>
    res_bind (py_get rates_data "last_refresh" PNone) (fun lr =>
    Ok (mkRate calculated_rate lr)))
  else Raise (RateNotFound from_code to_code)))))).

(** The body of the inner [try] of [get_rate]. *)
Definition get_rate_body (from_code to_code : string) : M rate_info :=
  RatesStorage_init cfg ;;;
  rates_data <- read_current_rates cfg ;;
  unusable <~ (if negb (truthy rates_data) then Ok true
               else res_bind (py_in "pairs" rates_data)
                             (fun b => Ok (negb b))) ;;
  if (unusable : bool) then raise (ApiRequestError "Rates data not available")
  else if String.eqb from_code to_code then
    lr <~ py_get rates_data "last_refresh" PNone ;;
    ret (mkRate (PFloat 1%float) lr)
  else lift (get_rate_lookup rates_data from_code to_code).

(** [PortfolioManager.get_rate].  The [log_action] decorator around it
    emits one log record per call ([logger.info] on return,
    [logger.error] on an exception) and re-raises, so the decorated
    method returns and raises what this does.  The log records, which the
    logging setup of the application writes to a log file, are not
    modelled: the world holds the files of the rate store and the trace
    of the accesses to them, nothing of the logging system. *)
Definition get_rate (from_code to_code : string) : M rate_info :=
  (* try: get_currency(...) except CurrencyNotFoundError as e: raise e *)
  _ <~ get_currency registry from_code ;;
  _ <~ get_currency registry to_code ;;
  try_except (get_rate_body from_code to_code)
             (fun e => raise (FailedToGetRate e)).
End Resolver.

(* ================================================================== *)
(** ** parser_service/scheduler.py *)

Section Scheduler.
Variable env : environment.
Variable cfg : ParserConfig.

(** [RatesScheduler.run_once] *)
Definition run_once : M bool :=
  try_except (run_update env cfg) (fun _ => ret false).

End Scheduler.

(* ================================================================== *)
(** ** core/currencies.py: the registry *)

(** [register_currency(currency)], on the keys of the registry;
    [code] is [currency.code], which [Currency.__init__] has upper-cased. *)
Definition register_currency (registry : list string) (code : string)
  : list string :=
  if existsb (String.eqb code) registry then registry else registry ++ [code].

(** The keys of [get_all_currencies()]. *)
Definition get_all_currencies (registry : list string) : list string :=
  registry_keys registry.

(* ================================================================== *)
(** ** core/models.py: Wallet and Portfolio *)

(** What the wallet code raises: the exceptions above, and
    [InsufficientFundsError] with its three attributes. *)
Inductive trade_exn : Type :=
| Builtin (e : exn)
| InsufficientFundsError (currency_code : string) (available required : float).

Inductive tres (A : Type) : Type :=
| TOk (a : A)
| TRaise (e : trade_exn).
Arguments TOk {A} a.
Arguments TRaise {A} e.

(** A [Wallet]: the registry key of its currency and its balance. *)
Record Wallet : Type := mkWallet {
  wallet_currency : string;
  wallet_balance : float
}.

(** [Wallet.__init__]: the balance is stored as given, without the
    setter's check. *)
Definition Wallet_init (registry : list string) (currency_code : string)
    (balance : float) : tres Wallet :=
  match get_currency registry currency_code with
  | Ok key => TOk (mkWallet key balance)
  | Raise e => TRaise (Builtin e)
  end.

(** The [balance] setter *)
Definition Wallet_set_balance (w : Wallet) (value : float) : tres Wallet :=
  if PrimFloat.ltb value 0%float then TRaise (Builtin ValueError)
  else TOk (mkWallet (wallet_currency w) value).

(** [Wallet.deposit] *)
Definition Wallet_deposit (w : Wallet) (amount : float) : tres Wallet :=
  if PrimFloat.leb amount 0%float then TRaise (Builtin ValueError)
  else Wallet_set_balance w (wallet_balance w + amount)%float.

(** [Wallet.withdraw] *)
Definition Wallet_withdraw (w : Wallet) (amount : float) : tres Wallet :=
  if PrimFloat.leb amount 0%float then TRaise (Builtin ValueError)
  else if PrimFloat.ltb (wallet_balance w) amount then
    TRaise (InsufficientFundsError (wallet_currency w) (wallet_balance w) amount)
  else Wallet_set_balance w (wallet_balance w - amount)%float.

(** A [Portfolio] is its [_wallets] dictionary; a method returns or
    raises, and leaves the dictionary as it has changed it so far. *)
Definition PM (A : Type) : Type := dict Wallet -> tres A * dict Wallet.

Section Portfolio.
Variable registry : list string.

(** [Portfolio.add_currency] *)
Definition Portfolio_add_currency (currency_code : string) : PM unit :=
  fun wallets =>
    if dict_mem currency_code wallets then (TRaise (Builtin ValueError), wallets)
    else match Wallet_init registry currency_code 0%float with
         | TOk w => (TOk tt, dict_set currency_code w wallets)
         | TRaise e => (TRaise e, wallets)
         end.

(** [Portfolio.get_wallet] *)
Definition Portfolio_get_wallet (currency_code : string) : PM Wallet :=
  fun wallets =>
    match dict_get currency_code wallets with
    | Some w => (TOk w, wallets)
    | None => (TRaise (Builtin ValueError), wallets)
    end.

(** [Portfolio.buy_currency] *)
Definition Portfolio_buy_currency (currency_code : string)
    (amount price : float) : PM unit :=
  fun wallets =>
    if PrimFloat.leb amount 0%float then (TRaise (Builtin ValueError), wallets)
    else if PrimFloat.leb price 0%float then (TRaise (Builtin ValueError), wallets)
    else
      match (if dict_mem currency_code wallets then (TOk tt, wallets)
             else Portfolio_add_currency currency_code wallets) with
      | (TRaise e, wallets1) => (TRaise e, wallets1)
      | (TOk _, wallets1) =>
          match Portfolio_get_wallet "USD" wallets1 with
          | (TRaise e, wallets2) => (TRaise e, wallets2)
          | (TOk usd_wallet, wallets2) =>
              let total_cost := (amount * price)%float in
              if PrimFloat.ltb (wallet_balance usd_wallet) total_cost
              then (TRaise (Builtin ValueError), wallets2)
              else
                match Wallet_withdraw usd_wallet total_cost with
                | TRaise e => (TRaise e, wallets2)
                | TOk usd_wallet' =>
                    let wallets3 := dict_set "USD" usd_wallet' wallets2 in
                    match Portfolio_get_wallet currency_code wallets3 with
                    | (TRaise e, wallets4) => (TRaise e, wallets4)
                    | (TOk target_wallet, wallets4) =>
                        match Wallet_deposit target_wallet amount with
                        | TRaise e => (TRaise e, wallets4)
                        | TOk target_wallet' =>
                            (TOk tt, dict_set currency_code target_wallet' wallets4)
                        end
                    end
                end
          end
      end.

(** [Portfolio.sell_currency] *)
Definition Portfolio_sell_currency (currency_code : string)
    (amount price : float) : PM unit :=
  fun wallets =>
    if PrimFloat.leb amount 0%float then (TRaise (Builtin ValueError), wallets)
    else if PrimFloat.leb price 0%float then (TRaise (Builtin ValueError), wallets)
    else if negb (dict_mem currency_code wallets)
    then (TRaise (Builtin ValueError), wallets)
    else
      match Portfolio_get_wallet currency_code wallets with
      | (TRaise e, wallets1) => (TRaise e, wallets1)
      | (TOk source_wallet, wallets1) =>
          if PrimFloat.ltb (wallet_balance source_wallet) amount
          then (TRaise (InsufficientFundsError currency_code
                          (wallet_balance source_wallet) amount), wallets1)
          else
            match Portfolio_get_wallet "USD" wallets1 with
            | (TRaise e, wallets2) => (TRaise e, wallets2)
            | (TOk usd_wallet, wallets2) =>
                let total_revenue := (amount * price)%float in
                match Wallet_withdraw source_wallet amount with
                | TRaise e => (TRaise e, wallets2)
                | TOk source_wallet' =>
                    let wallets3 := dict_set currency_code source_wallet' wallets2 in
                    (* usd_wallet is the object bound before the withdrawal *)
                    match Wallet_deposit
                            (if String.eqb currency_code "USD"
                             then source_wallet' else usd_wallet)
                            total_revenue with
                    | TRaise e => (TRaise e, wallets3)
                    | TOk usd_wallet' =>
                        (TOk tt, dict_set "USD" usd_wallet' wallets3)
                    end
                end
            end
      end.

End Portfolio.

(** The table inside [Portfolio.get_total_value]. *)
Definition total_value_rates : dict float :=
  [("USD", 1%float); ("EUR", 0.85%float); ("RUB", 0.011%float);
   ("BTC", 50000%float)].

(** [Portfolio.get_total_value] *)
Definition Portfolio_get_total_value (wallets : dict Wallet)
    (base_currency : string) : float :=
  fold_left
    (fun total_value item =>
       match dict_get (fst item) total_value_rates,
             dict_get base_currency total_value_rates with
       | Some rc, Some rb =>
           (total_value + wallet_balance (snd item) * (rc / rb))%float
       | _, _ => total_value
       end)
    wallets 0%float.

(* ================================================================== *)
(** * Vocabulary of the statements *)

(** What a run returns or raises, and the world it leaves. *)
Definition result_of {A} (m : M A) (w : world) : res A := fst (m w).
Definition world_after {A} (m : M A) (w : world) : world := snd (m w).

Definition or_none (o : option pyval) : pyval :=
  match o with Some v => v | None => PNone end.

Definition wrap_failure {A} (r : res A) : res A :=
  match r with Ok a => Ok a | Raise e => Raise (FailedToGetRate e) end.

(** What [read_current_rates] returns, as a function of the files. *)
Definition snapshot_of (cfg : ParserConfig) (d : dict content) : pyval :=
  match dict_get (RATES_FILE_PATH cfg) d with
  | Some (Doc v) => v
  | _ => PDict []
  end.

(** What the inner [try] of [get_rate] computes from the data read. *)
Definition answer_from (rates_data : pyval) (from_code to_code : string)
  : res rate_info :=
  res_bind (if negb (truthy rates_data) then Ok true
            else res_bind (py_in "pairs" rates_data) (fun b => Ok (negb b)))
    (fun unusable : bool =>
       if unusable then Raise (ApiRequestError "Rates data not available")
       else if String.eqb from_code to_code then
         res_bind (py_get rates_data "last_refresh" PNone)
                  (fun lr => Ok (mkRate (PFloat 1%float) lr))
       else get_rate_lookup rates_data from_code to_code).

(** The lookup through USD, on a well-formed [pairs] object: both legs
    given by what the entries hold. *)
Definition leg_rate (pairs : dict pyval) (code : string) : res pyval :=
  if dict_mem (pair_key code "USD") pairs then
    res_bind (py_getitem (PDict pairs) (pair_key code "USD"))
             (fun e => py_getitem e "rate")
  else if dict_mem (pair_key "USD" code) pairs then
    res_bind (py_getitem (PDict pairs) (pair_key "USD" code)) (fun e =>
    res_bind (py_getitem e "rate") (fun r => py_div (PFloat 1%float) r))
  else Ok PNone.

(** Spec 4.4, steps 2 and 3 read against the base currency only: the rate
    stored under [{code}_USD], else the inverse of the rate stored under
    [USD_{code}], else nothing. *)
Definition stored_rate (pairs : dict pyval) (key : string) : option float :=
  match dict_get key pairs with
  | Some (PDict entry) =>
      match dict_get "rate" entry with Some (PFloat x) => Some x | _ => None end
  | _ => None
  end.

Definition resolve_to_base (pairs : dict pyval) (code : string) : option float :=
  if dict_mem (pair_key code "USD") pairs then
    stored_rate pairs (pair_key code "USD")
  else if dict_mem (pair_key "USD" code) pairs then
    match stored_rate pairs (pair_key "USD" code) with
    | Some r => if is_zero r then None else Some (1 / r)%float
    | None => None
    end
  else None.

(** The world with the given files and nothing else yet. *)
Definition world_with (files : dict content) : world :=
  mkWorld files [] [] 0 0 0 0.

Definition entry_of (r : float) (stamp : string) : pyval :=
  PDict [("rate", PFloat r); ("updated_at", PStr stamp);
         ("source", PStr "ExchangeRate-API")].

(** A snapshot that stores exactly [EUR_USD = 2.0] and [BTC_USD = 4.0]. *)
Definition snapshot_2_4 : pyval :=
  PDict [("pairs", PDict [("EUR_USD", entry_of 2%float "t1");
                          ("BTC_USD", entry_of 4%float "t2")]);
         ("last_refresh", PStr "t3")].

Definition world_2_4 : world :=
  world_with [(RATES_FILE_PATH config, Doc snapshot_2_4)].

(** A snapshot as the updater writes it under the shipped configuration,
    which fetches SOL: it stores [SOL_USD] and [BTC_USD]. *)
Definition pairs_sol : dict pyval :=
  [("SOL_USD", PDict [("rate", PFloat 2%float); ("updated_at", PStr "t1");
                      ("source", PStr "CoinGecko")]);
   ("BTC_USD", PDict [("rate", PFloat 4%float); ("updated_at", PStr "t2");
                      ("source", PStr "CoinGecko")])].

Definition world_sol : world :=
  world_with [(RATES_FILE_PATH config,
               Doc (PDict [("pairs", PDict pairs_sol);
                           ("last_refresh", PStr "t3")]))].

(** Two worlds with the same files, the same temporary files left and the
    same writes still to come. *)
Definition same_files (w w' : world) : Prop :=
  disk w' = disk w /\ faults w' = faults w /\ stray_tmp w' = stray_tmp w.

(** [quiet m]: running [m] changes no file, leaves no temporary file and
    attempts no write. *)
Definition quiet {A} (m : M A) : Prop := forall w, same_files w (snd (m w)).

Definition sample_record : dict pyval :=
  [("id", PStr "EUR_USD_2024-01-01T00:00:00Z"); ("rate", PFloat 0.93%float)].

(** The reply of a price service that knows none of the configured
    assets, and of a conversion service that lists none of the configured
    currencies. *)
Definition env_nothing_known : environment := {|
  http_get := fun url _ =>
    if String.eqb url (COINGECKO_URL config) then Replies (PDict [])
    else Replies (PDict [("result", PStr "success");
                         ("conversion_rates", PDict [("JPY", PFloat 150%float)])]);
  utcnow := fun _ => mkDatetime "2024-01-01T00:00:00+00:00" "2024-01-01T00:00:00Z";
  float_of_str := fun _ => None
|}.

(** A network that is down, and a disk on which the next rename fails. *)
Definition env_offline : environment := {|
  http_get := fun _ _ => RequestFails "connection refused";
  utcnow := fun _ => mkDatetime "2024-01-01T00:00:00+00:00" "2024-01-01T00:00:00Z";
  float_of_str := fun _ => None
|}.

Definition world_failing_rename : world :=
  mkWorld [(RATES_FILE_PATH config, Doc snapshot_2_4)] [] [FailReplace] 0 0 0 0.



(** [keeps f m]: running [m] leaves the component [f] of the world as it
    was, whether [m] returns or raises. *)
Definition keeps {X A} (f : world -> X) (m : M A) : Prop :=
  forall w, f (snd (m w)) = f w.

(** The records [_load_history] reads from what the history path holds:
    none when there is no file or it does not parse; not defined when the
    document is not a list. *)
Definition stored_history (c : option content) : option (list pyval) :=
  match c with
  | None => Some []
  | Some (Garbled _) => Some []
  | Some (Doc (PList l)) => Some l
  | Some (Doc _) => None
  end.

(** Whether a value has a length. *)
Definition is_sized (v : pyval) : bool :=
  match v with PDict _ | PList _ | PStr _ => true | _ => false end.

(** Whether a pair key splits into exactly two parts at ['_']. *)
Definition unpacks (key : string) : bool :=
  match unpack_pair key with Ok _ => true | Raise _ => false end.

(** [record] is a historical record of the pair [item]: a dictionary with
    the pair's rate and, as [meta], the raw key. *)
Definition record_of_pair (item : string * float) (record : pyval) : Prop :=
  exists d, record = PDict d
            /\ dict_get "rate" d = Some (PFloat (snd item))
            /\ dict_get "meta" d = Some (PDict [("raw_pair", PStr (fst item))]).

(** The source recorded for a pair in the [pairs] object of a snapshot. *)
Definition stored_source (pairs : dict pyval) (key : string) : option string :=
  match dict_get key pairs with
  | Some (PDict entry) =>
      match dict_get "source" entry with Some (PStr s) => Some s | _ => None end
  | _ => None
  end.

(** The first part of a key that splits in two. *)
Definition from_part (key : string) : string :=
  match unpack_pair key with Ok (a, _) => a | Raise _ => "" end.

(** What the updater gets from a source client: its mapping, or the empty
    one when the client raises. *)
Definition fetched (r : res (dict float)) : dict float :=
  match r with Ok d => d | Raise _ => [] end.

(** One for a source that delivered something, zero otherwise. *)
Definition delivered (d : dict float) : nat :=
  match d with [] => 0 | _ => 1 end.

(** The rate a merge of the two sources keeps for a key: the fiat
    client's, which is fetched last, else the crypto client's. *)
Definition merged_rate (crypto fiat : dict float) (k : string) : option float :=
  match dict_get k fiat with Some r => Some r | None => dict_get k crypto end.

(** What a run keeps an eye on once the snapshot is written: the
    snapshot file and the two counters. *)
Definition committed (cfg : ParserConfig) (w : world)
  : option content * nat * nat :=
  (dict_get (RATES_FILE_PATH cfg) (disk w), successful_sources w, total_rates w).

(** The float a dictionary holds under a key, if it holds one. *)
Definition float_at (d : dict pyval) (k : string) : option float :=
  match dict_get k d with Some (PFloat x) => Some x | _ => None end.

(** A key of a reply is well-behaved when it is absent or holds a float. *)
Definition float_or_absent (d : dict pyval) (k : string) : bool :=
  match dict_get k d with
  | None => true
  | Some (PFloat _) => true
  | Some _ => false
  end.

(** The price a price reply quotes in USD for an asset id, if any. *)
Definition usd_price (data : dict pyval) (id : string) : option float :=
  match dict_get id data with
  | Some (PDict prices) => float_at prices "usd"
  | _ => None
  end.

(** An asset id of a price reply is well-behaved when it is absent, or
    holds an object whose ['usd'] is absent or a float. *)
Definition quoted_or_absent (data : dict pyval) (id : string) : bool :=
  match dict_get id data with
  | None => true
  | Some (PDict prices) => float_or_absent prices "usd"
  | Some _ => false
  end.

(** The loop shared by the two parsers, as a fold: every item that has a
    value is stored under its key, the others are passed over. *)
Definition collect {A} (key : A -> string) (value : A -> option float)
    (l : list A) (acc : dict float) : dict float :=
  fold_left (fun acc x => match value x with
                          | Some v => dict_set (key x) v acc
                          | None => acc
                          end) l acc.

(* ================================================================== *)
(** * Properties *)

(** ** Floats *)

Lemma positive_not_zero (x : float) :
  PrimFloat.ltb 0%float x = true -> is_zero x = false.
Proof.
  unfold is_zero. intros H.
  rewrite FloatAxioms.ltb_spec in H. rewrite FloatAxioms.eqb_spec.
  change (Prim2SF 0%float) with (S754_zero false) in *.
  destruct (Prim2SF x) as [s|s| |s m e]; cbn in *; try discriminate; auto.
  all: destruct s; cbn in *; try discriminate; auto.
Qed.

(** ** Reading the snapshot *)

Lemma read_current_rates_absent cfg w :
  dict_get (RATES_FILE_PATH cfg) (disk w) = None ->
  result_of (read_current_rates cfg) w = Ok (PDict []).
Proof.
  intros H. unfold result_of, read_current_rates, path_exists, bind, get_world,
    modify, ret, dict_mem. cbn. rewrite H. reflexivity.
Qed.

Lemma read_current_rates_garbled cfg w t :
  dict_get (RATES_FILE_PATH cfg) (disk w) = Some (Garbled t) ->
  result_of (read_current_rates cfg) w = Ok (PDict []).
Proof.
  intros H. unfold result_of, read_current_rates, path_exists, bind, get_world,
    modify, ret, dict_mem. cbn. rewrite H. cbn.
  unfold try_except, open_json_load, bind, get_world, modify. cbn.
  rewrite H. reflexivity.
Qed.

Lemma read_current_rates_keeps_disk cfg w :
  disk (world_after (read_current_rates cfg) w) = disk w.
Proof.
  unfold world_after, read_current_rates, path_exists, bind, get_world,
    modify, ret. cbn.
  destruct (dict_mem (RATES_FILE_PATH cfg) (disk w)); cbn; [|reflexivity].
  unfold try_except, open_json_load, bind, get_world, modify. cbn.
  destruct (dict_get (RATES_FILE_PATH cfg) (disk w)) as [[t|v]|]; reflexivity.
Qed.

(** ** The resolver *)

(** With both codes registered, [get_rate] is its inner [try] with every
    exception wrapped. *)
Lemma get_rate_registered registry cfg from_code to_code w :
  is_registered registry from_code = true ->
  is_registered registry to_code = true ->
  result_of (get_rate registry cfg from_code to_code) w
  = wrap_failure (result_of (get_rate_body cfg from_code to_code) w).
Proof.
  intros Hf Ht.
  unfold result_of, get_rate, get_currency, bind, lift, try_except, raise.
  rewrite Hf, Ht.
  destruct (get_rate_body cfg from_code to_code w) as [[a|e] w']; reflexivity.
Qed.

Lemma read_current_rates_result cfg w :
  result_of (read_current_rates cfg) w = Ok (snapshot_of cfg (disk w)).
Proof.
  unfold result_of, snapshot_of, read_current_rates, path_exists, try_except,
    open_json_load, bind, get_world, modify, ret, raise, dict_mem. cbn.
  destruct (dict_get (RATES_FILE_PATH cfg) (disk w)) as [[t|v]|] eqn:E; cbn;
    rewrite ?E; reflexivity.
Qed.

Lemma get_rate_body_result cfg from_code to_code w :
  result_of (get_rate_body cfg from_code to_code) w
  = answer_from (snapshot_of cfg (disk w)) from_code to_code.
Proof.
  unfold result_of, answer_from, snapshot_of, get_rate_body, RatesStorage_init,
    read_current_rates, path_exists, try_except, open_json_load, bind, lift,
    get_world, modify, ret, raise, dict_mem. cbn.
  destruct (dict_get (RATES_FILE_PATH cfg) (disk w)) as [[t|v]|] eqn:E; cbn;
    rewrite ?E; cbn; try reflexivity.
  destruct (if negb (truthy v) then Ok true
            else res_bind (py_in "pairs" v) (fun b => Ok (negb b)))
    as [[|]|e]; cbn; try reflexivity.
  destruct (String.eqb from_code to_code); [|reflexivity].
  destruct (py_get v "last_refresh" PNone); reflexivity.
Qed.

(** With a snapshot document that is an object with a ['pairs'] key, the
    inner [try] is the identity answer or the lookup. *)
Lemma answer_from_usable o from_code to_code :
  dict_mem "pairs" o = true ->
  answer_from (PDict o) from_code to_code
  = if String.eqb from_code to_code
    then Ok (mkRate (PFloat 1%float) (or_none (dict_get "last_refresh" o)))
    else get_rate_lookup (PDict o) from_code to_code.
Proof.
  intros Hp. unfold answer_from.
  destruct o as [|kv o']; [discriminate|].
  cbn [truthy negb py_in res_bind]. rewrite Hp. cbn [negb].
  destruct (String.eqb from_code to_code); [|reflexivity].
  cbn [py_get]. destruct (dict_get "last_refresh" (kv :: o')); reflexivity.
Qed.

Lemma snapshot_of_doc cfg d v :
  dict_get (RATES_FILE_PATH cfg) d = Some (Doc v) -> snapshot_of cfg d = v.
Proof. unfold snapshot_of. now intros ->. Qed.

Lemma get_rate_lookup_legs o pairs from_code to_code :
  dict_get "pairs" o = Some (PDict pairs) ->
  dict_mem (pair_key from_code to_code) pairs = false ->
  dict_mem (pair_key to_code from_code) pairs = false ->
  get_rate_lookup (PDict o) from_code to_code
  = res_bind (leg_rate pairs from_code) (fun from_rate =>
    res_bind (leg_rate pairs to_code) (fun to_rate =>
    if truthy from_rate && truthy to_rate then
      res_bind (py_div to_rate from_rate) (fun calculated_rate =>
      Ok (mkRate calculated_rate (or_none (dict_get "last_refresh" o))))
    else Raise (RateNotFound from_code to_code))).
Proof.
  intros Hp Hd Hr.
  unfold get_rate_lookup, leg_rate. cbn [py_getitem]. rewrite Hp.
  cbn [res_bind py_in]. rewrite Hd, Hr. cbn [py_get].
  destruct (dict_get "last_refresh" o); reflexivity.
Qed.

Lemma get_rate_lookup_via_usd o pairs from_code to_code f t :
  dict_get "pairs" o = Some (PDict pairs) ->
  dict_mem (pair_key from_code to_code) pairs = false ->
  dict_mem (pair_key to_code from_code) pairs = false ->
  leg_rate pairs from_code = Ok (PFloat f) ->
  leg_rate pairs to_code = Ok (PFloat t) ->
  is_zero f = false ->
  is_zero t = false ->
  get_rate_lookup (PDict o) from_code to_code
  = Ok (mkRate (PFloat (t / f)%float) (or_none (dict_get "last_refresh" o))).
Proof.
  intros Hp Hd Hr Hf Ht Zf Zt.
  rewrite (get_rate_lookup_legs o pairs) by assumption.
  rewrite Hf, Ht. cbn [res_bind truthy]. rewrite Zf, Zt. cbn [negb andb].
  unfold py_div. cbn [as_number]. rewrite Zf. reflexivity.
Qed.

Lemma stored_rate_getitem pairs key x :
  stored_rate pairs key = Some x ->
  res_bind (py_getitem (PDict pairs) key) (fun e => py_getitem e "rate")
  = Ok (PFloat x).
Proof.
  unfold stored_rate. cbn [py_getitem].
  destruct (dict_get key pairs) as [[| | | | |entry]|]; try discriminate.
  cbn [res_bind py_getitem].
  destruct (dict_get "rate" entry) as [[| |y| | |]|]; try discriminate.
  now intros [= ->].
Qed.

Lemma resolve_to_base_leg_rate pairs code f :
  resolve_to_base pairs code = Some f -> leg_rate pairs code = Ok (PFloat f).
Proof.
  unfold resolve_to_base, leg_rate.
  destruct (dict_mem (pair_key code "USD") pairs).
  - apply stored_rate_getitem.
  - destruct (dict_mem (pair_key "USD" code) pairs); [|discriminate].
    unfold stored_rate. cbn [py_getitem].
    destruct (dict_get (pair_key "USD" code) pairs) as [[| | | | |entry]|];
      try discriminate.
    cbn [res_bind py_getitem].
    destruct (dict_get "rate" entry) as [[| |y| | |]|]; try discriminate.
    cbn [res_bind]. unfold py_div. cbn [as_number].
    destruct (is_zero y); [discriminate|]. now intros [= ->].
Qed.

(** C1 (the code at the failing input).  With [EUR_USD = 2.0] and
    [BTC_USD = 4.0] stored and no direct or reverse pair, [get_rate] of
    EUR to BTC answers through USD with rate 2.0, which is not 0.5; the
    direct and the reverse step of the same function, on the same
    snapshot, give EUR to USD as 2.0 and USD to BTC as 0.25, whose product
    is the 0.5 the spec expects. *)
Theorem get_rate_cross_2_4_is_2 :
  result_of (get_rate [] config "EUR" "BTC") world_2_4
    = Ok (mkRate (PFloat 2%float) (PStr "t3"))
  /\ PrimFloat.eqb 2%float 0.5%float = false
  /\ result_of (get_rate [] config "EUR" "USD") world_2_4
    = Ok (mkRate (PFloat 2%float) (PStr "t1"))
  /\ result_of (get_rate [] config "USD" "BTC") world_2_4
    = Ok (mkRate (PFloat 0.25%float) (PStr "t2"))
  /\ (2 * 0.25)%float = 0.5%float.
Proof. repeat split; vm_compute; reflexivity. Qed.

(** C2 (as stated, refuted).  SOL is fetched by the crypto client but is
    not in the currency registry: with [SOL_USD] and [BTC_USD] stored and
    no direct or reverse pair, both legs resolve against USD, yet
    [get_rate] of SOL to BTC raises before it looks at the snapshot. *)
Lemma get_rate_cross_rate_unregistered :
  dict_mem (pair_key "SOL" "BTC") pairs_sol = false
  /\ dict_mem (pair_key "BTC" "SOL") pairs_sol = false
  /\ resolve_to_base pairs_sol "SOL" = Some 2%float
  /\ resolve_to_base pairs_sol "BTC" = Some 4%float
  /\ result_of (get_rate [] config "SOL" "BTC") world_sol
     = Raise (CurrencyNotFoundError "SOL").
Proof. repeat split; vm_compute; reflexivity. Qed.

(** C2 (amended).  For registered, distinct codes with no direct and no
    reverse entry, whose legs to USD resolve (direct, else inverse) to
    positive rates [f] and [t], [get_rate] returns rate [t / f] and the
    snapshot's [last_refresh] as [updated_at]. *)
Theorem get_rate_cross_rate registry cfg w from_code to_code o pairs f t :
  is_registered registry from_code = true ->
  is_registered registry to_code = true ->
  String.eqb from_code to_code = false ->
  dict_get (RATES_FILE_PATH cfg) (disk w) = Some (Doc (PDict o)) ->
  dict_get "pairs" o = Some (PDict pairs) ->
  dict_mem (pair_key from_code to_code) pairs = false ->
  dict_mem (pair_key to_code from_code) pairs = false ->
  resolve_to_base pairs from_code = Some f ->
  resolve_to_base pairs to_code = Some t ->
  PrimFloat.ltb 0%float f = true ->
  PrimFloat.ltb 0%float t = true ->
  result_of (get_rate registry cfg from_code to_code) w
  = Ok (mkRate (PFloat (t / f)%float) (or_none (dict_get "last_refresh" o))).
Proof.
  intros Rf Rt Hne Hd Hp Hdir Hrev Hf Ht Pf Pt.
  rewrite get_rate_registered by assumption.
  rewrite get_rate_body_result, (snapshot_of_doc _ _ _ Hd).
  rewrite answer_from_usable by (unfold dict_mem; now rewrite Hp).
  rewrite Hne.
  rewrite (get_rate_lookup_via_usd o pairs from_code to_code f t);
    auto using resolve_to_base_leg_rate, positive_not_zero.
Qed.

Lemma get_rate_cross_rate_witness :
  result_of (get_rate [] config "EUR" "BTC") world_2_4
  = Ok (mkRate (PFloat (4 / 2)%float) (PStr "t3")).
Proof.
  apply (get_rate_cross_rate [] config world_2_4 "EUR" "BTC"
           [("pairs", PDict [("EUR_USD", entry_of 2%float "t1");
                             ("BTC_USD", entry_of 4%float "t2")]);
            ("last_refresh", PStr "t3")]
           [("EUR_USD", entry_of 2%float "t1");
            ("BTC_USD", entry_of 4%float "t2")]
           2%float 4%float); reflexivity.
Defined.

(** C3 (as stated, refuted).  With no snapshot file at all, with one
    that does not parse, or with one that holds an object without a
    ['pairs'] key, [get_rate] of a registered currency to itself does not
    answer 1.0: it raises. *)
Lemma get_rate_identity_without_snapshot :
  is_registered [] "USD" = true
  /\ result_of (get_rate [] config "USD" "USD") (world_with [])
     = Raise (FailedToGetRate (ApiRequestError "Rates data not available"))
  /\ (forall u, result_of (get_rate [] config "USD" "USD") (world_with [])
                <> Ok (mkRate (PFloat 1%float) u))
  /\ result_of (get_rate [] config "USD" "USD")
       (world_with [(RATES_FILE_PATH config, Garbled "{")])
     = Raise (FailedToGetRate (ApiRequestError "Rates data not available"))
  /\ result_of (get_rate [] config "USD" "USD")
       (world_with [(RATES_FILE_PATH config,
                     Doc (PDict [("last_refresh", PStr "t")]))])
     = Raise (FailedToGetRate (ApiRequestError "Rates data not available")).
Proof.
  split; [reflexivity|]. split; [vm_compute; reflexivity|].
  split; [intros u; vm_compute; discriminate|].
  split; vm_compute; reflexivity.
Qed.

(** Without a usable snapshot (no file, a file that does not parse, or a
    document that is empty) every request between registered codes
    raises, the identity one included. *)
Lemma get_rate_no_data registry cfg w from_code to_code :
  is_registered registry from_code = true ->
  is_registered registry to_code = true ->
  truthy (snapshot_of cfg (disk w)) = false ->
  result_of (get_rate registry cfg from_code to_code) w
  = Raise (FailedToGetRate (ApiRequestError "Rates data not available")).
Proof.
  intros Rf Rt Hv.
  rewrite get_rate_registered by assumption.
  rewrite get_rate_body_result. unfold answer_from. now rewrite Hv.
Qed.

(** A snapshot that holds an object without a ['pairs'] key is no better
    than none. *)
Lemma get_rate_no_pairs registry cfg w from_code to_code o :
  is_registered registry from_code = true ->
  is_registered registry to_code = true ->
  dict_get (RATES_FILE_PATH cfg) (disk w) = Some (Doc (PDict o)) ->
  dict_mem "pairs" o = false ->
  result_of (get_rate registry cfg from_code to_code) w
  = Raise (FailedToGetRate (ApiRequestError "Rates data not available")).
Proof.
  intros Rf Rt Hd Hp.
  rewrite get_rate_registered by assumption.
  rewrite get_rate_body_result, (snapshot_of_doc _ _ _ Hd).
  unfold answer_from. destruct o as [|kv o']; [reflexivity|].
  cbn [truthy negb py_in res_bind]. now rewrite Hp.
Qed.

(** C3 (amended).  For a registered code [A]: when the snapshot file
    holds an object with a ['pairs'] key, [get_rate(A, A)] returns
    exactly 1.0 with the snapshot's [last_refresh] ([None] when it has
    none), whatever the pairs are; when the snapshot file is missing,
    does not parse, holds an empty (falsy) document, or holds an object
    without a ['pairs'] key, [get_rate(A, A)] raises the API error
    "Rates data not available", wrapped by its outer handler. *)
Theorem get_rate_identity registry cfg w A :
  is_registered registry A = true ->
  (forall o,
     dict_get (RATES_FILE_PATH cfg) (disk w) = Some (Doc (PDict o)) ->
     dict_mem "pairs" o = true ->
     result_of (get_rate registry cfg A A) w
     = Ok (mkRate (PFloat 1%float) (or_none (dict_get "last_refresh" o))))
  /\ (dict_get (RATES_FILE_PATH cfg) (disk w) = None
      \/ (exists text,
            dict_get (RATES_FILE_PATH cfg) (disk w) = Some (Garbled text))
      \/ (exists v,
            dict_get (RATES_FILE_PATH cfg) (disk w) = Some (Doc v)
            /\ truthy v = false)
      \/ (exists o,
            dict_get (RATES_FILE_PATH cfg) (disk w) = Some (Doc (PDict o))
            /\ dict_mem "pairs" o = false) ->
      result_of (get_rate registry cfg A A) w
      = Raise (FailedToGetRate (ApiRequestError "Rates data not available"))).
Proof.
  intros RA. split.
  - intros o Hd Hp.
    rewrite get_rate_registered by assumption.
    rewrite get_rate_body_result, (snapshot_of_doc _ _ _ Hd).
    rewrite answer_from_usable by assumption.
    now rewrite String.eqb_refl.
  - intros [Hd|[[text Hd]|[[v [Hd Hv]]|[o [Hd Hp]]]]].
    + apply get_rate_no_data; auto. unfold snapshot_of. now rewrite Hd.
    + apply get_rate_no_data; auto. unfold snapshot_of. now rewrite Hd.
    + apply get_rate_no_data; auto. now rewrite (snapshot_of_doc _ _ _ Hd).
    + now apply (get_rate_no_pairs registry cfg w A A o).
Qed.

Lemma get_rate_identity_witness :
  result_of (get_rate [] config "BTC" "BTC") world_2_4
  = Ok (mkRate (PFloat 1%float) (PStr "t3"))
  /\ result_of (get_rate [] config "BTC" "BTC")
       (world_with [(RATES_FILE_PATH config,
                     Doc (PDict [("last_refresh", PStr "t")]))])
     = Raise (FailedToGetRate (ApiRequestError "Rates data not available"))
  /\ result_of (get_rate [] config "BTC" "BTC") (world_with [])
     = Raise (FailedToGetRate (ApiRequestError "Rates data not available")).
Proof.
  split; [|split].
  - apply (proj1 (get_rate_identity [] config world_2_4 "BTC" eq_refl)
             [("pairs", PDict [("EUR_USD", entry_of 2%float "t1");
                               ("BTC_USD", entry_of 4%float "t2")]);
              ("last_refresh", PStr "t3")]); reflexivity.
  - apply (proj2 (get_rate_identity [] config
                    (world_with [(RATES_FILE_PATH config,
                                  Doc (PDict [("last_refresh", PStr "t")]))])
                    "BTC" eq_refl)).
    right. right. right. exists [("last_refresh", PStr "t")].
    split; reflexivity.
  - apply (proj2 (get_rate_identity [] config (world_with []) "BTC" eq_refl)).
    left. reflexivity.
Defined.

(** C6 (as stated, refuted).  With [SOL_USD] stored at rate 2.0 and no
    [USD_SOL], [get_rate] of USD to SOL does not answer 0.5: SOL is not a
    registered currency and the request raises. *)
Lemma get_rate_inverse_unregistered :
  stored_rate pairs_sol (pair_key "SOL" "USD") = Some 2%float
  /\ dict_mem (pair_key "USD" "SOL") pairs_sol = false
  /\ result_of (get_rate [] config "USD" "SOL") world_sol
     = Raise (CurrencyNotFoundError "SOL").
Proof. repeat split; vm_compute; reflexivity. Qed.

(** C6 (amended).  For registered, distinct codes [A] and [B], when the
    snapshot holds [A_B] with a positive rate [r] and does not hold [B_A],
    [get_rate(B, A)] returns [1.0 / r] with that entry's [updated_at]. *)
Theorem get_rate_inverse registry cfg w A B o pairs entry r u :
  is_registered registry A = true ->
  is_registered registry B = true ->
  String.eqb B A = false ->
  dict_get (RATES_FILE_PATH cfg) (disk w) = Some (Doc (PDict o)) ->
  dict_get "pairs" o = Some (PDict pairs) ->
  dict_get (pair_key A B) pairs = Some (PDict entry) ->
  dict_get "rate" entry = Some (PFloat r) ->
  PrimFloat.ltb 0%float r = true ->
  dict_get "updated_at" entry = Some u ->
  dict_get (pair_key B A) pairs = None ->
  result_of (get_rate registry cfg B A) w
  = Ok (mkRate (PFloat (1 / r)%float) u).
Proof.
  intros RA RB Hne Hd Hp He Hr Pr Hu Habs.
  rewrite get_rate_registered by assumption.
  rewrite get_rate_body_result, (snapshot_of_doc _ _ _ Hd).
  rewrite answer_from_usable by (unfold dict_mem; now rewrite Hp).
  rewrite Hne. unfold get_rate_lookup. cbn [py_getitem]. rewrite Hp.
  cbn [res_bind py_in]. unfold dict_mem. rewrite Habs, He.
  cbn [res_bind py_getitem]. rewrite He. cbn [res_bind py_getitem].
  rewrite Hr, Hu. cbn [res_bind]. unfold py_div. cbn [as_number].
  now rewrite (positive_not_zero r Pr).
Qed.

Lemma get_rate_inverse_witness :
  result_of (get_rate [] config "USD" "BTC") world_2_4
  = Ok (mkRate (PFloat (1 / 4)%float) (PStr "t2")).
Proof.
  apply (get_rate_inverse [] config world_2_4 "BTC" "USD"
           [("pairs", PDict [("EUR_USD", entry_of 2%float "t1");
                             ("BTC_USD", entry_of 4%float "t2")]);
            ("last_refresh", PStr "t3")]
           [("EUR_USD", entry_of 2%float "t1");
            ("BTC_USD", entry_of 4%float "t2")]
           [("rate", PFloat 4%float); ("updated_at", PStr "t2");
            ("source", PStr "ExchangeRate-API")]
           4%float (PStr "t2")); reflexivity.
Defined.

(** C7.  [read_current_rates] returns the empty dictionary, and does not
    raise, when the snapshot file does not exist and when it exists but
    does not parse; it leaves the files as they are. *)
Theorem read_current_rates_no_snapshot cfg w :
  dict_get (RATES_FILE_PATH cfg) (disk w) = None
  \/ (exists text, dict_get (RATES_FILE_PATH cfg) (disk w) = Some (Garbled text)) ->
  result_of (read_current_rates cfg) w = Ok (PDict [])
  /\ disk (world_after (read_current_rates cfg) w) = disk w.
Proof.
  intros H. split; [|apply read_current_rates_keeps_disk].
  destruct H as [H|[text H]].
  - now apply read_current_rates_absent.
  - now apply (read_current_rates_garbled cfg w text).
Qed.

Lemma read_current_rates_no_snapshot_witness :
  (result_of (read_current_rates config) (world_with []) = Ok (PDict [])
   /\ disk (world_after (read_current_rates config) (world_with [])) = [])
  /\ (result_of (read_current_rates config)
        (world_with [(RATES_FILE_PATH config, Garbled "{")]) = Ok (PDict [])
      /\ disk (world_after (read_current_rates config)
                 (world_with [(RATES_FILE_PATH config, Garbled "{")]))
         = [(RATES_FILE_PATH config, Garbled "{")]).
Proof.
  split.
  - apply (read_current_rates_no_snapshot config (world_with [])).
    left. reflexivity.
  - apply (read_current_rates_no_snapshot config
             (world_with [(RATES_FILE_PATH config, Garbled "{")])).
    right. exists "{". reflexivity.
Defined.

(** C10.  When either code is not registered, [get_rate] raises
    [CurrencyNotFoundError] for the first such code, upper-cased, and
    leaves the world untouched: nothing is read, listed or created, also
    when the two codes are equal. *)
Theorem get_rate_unknown_currency registry cfg w from_code to_code :
  is_registered registry from_code = false
  \/ is_registered registry to_code = false ->
  get_rate registry cfg from_code to_code w
  = (Raise (CurrencyNotFoundError
              (if is_registered registry from_code
               then upper to_code else upper from_code)),
     w).
Proof.
  intros H. unfold get_rate, get_currency, bind, lift.
  destruct (is_registered registry from_code); [|reflexivity].
  destruct H as [H|H]; [discriminate|]. now rewrite H.
Qed.

Lemma get_rate_unknown_currency_witness :
  get_rate [] config "sol" "sol" world_2_4
  = (Raise (CurrencyNotFoundError "SOL"), world_2_4).
Proof.
  apply (get_rate_unknown_currency [] config world_2_4 "sol" "sol").
  left. reflexivity.
Defined.

(** ** Code that leaves the files alone *)

Lemma same_files_refl w : same_files w w.
Proof. repeat split. Qed.

Lemma same_files_trans w1 w2 w3 :
  same_files w1 w2 -> same_files w2 w3 -> same_files w1 w3.
Proof. unfold same_files. intuition congruence. Qed.

Lemma quiet_ret {A} (a : A) : quiet (ret a).
Proof. intros w. apply same_files_refl. Qed.

Lemma quiet_raise {A} e : quiet (raise (A := A) e).
Proof. intros w. apply same_files_refl. Qed.

Lemma quiet_lift {A} (r : res A) : quiet (lift r).
Proof. intros w. apply same_files_refl. Qed.

Lemma quiet_get_world : quiet get_world.
Proof. intros w. apply same_files_refl. Qed.

Lemma quiet_modify (g : world -> world) :
  (forall w, same_files w (g w)) -> quiet (modify g).
Proof. intros H w. apply H. Qed.

Lemma quiet_bind {A B} (m : M A) (k : A -> M B) :
  quiet m -> (forall a, quiet (k a)) -> quiet (bind m k).
Proof.
  intros Hm Hk w. unfold bind. specialize (Hm w).
  destruct (m w) as [[a|e] w1]; cbn in *; [|exact Hm].
  eapply same_files_trans; [exact Hm|apply Hk].
Qed.

Lemma quiet_try_except2 {A} (m : M A) p (h1 h2 : exn -> M A) :
  quiet m -> (forall e, quiet (h1 e)) -> (forall e, quiet (h2 e)) ->
  quiet (try_except2 m p h1 h2).
Proof.
  intros Hm H1 H2 w. unfold try_except2. specialize (Hm w).
  destruct (m w) as [[a|e] w1]; cbn in *; [exact Hm|].
  destruct (p e); (eapply same_files_trans; [exact Hm|]); [apply H1|apply H2].
Qed.

Lemma quiet_M_for {A B} (l : list A) (body : B -> A -> M B) :
  (forall acc x, quiet (body acc x)) -> forall acc, quiet (M_for l acc body).
Proof.
  intros Hb. induction l as [|x l IH]; intros acc; cbn [M_for].
  - apply quiet_ret.
  - apply quiet_bind; [apply Hb|exact IH].
Qed.

Ltac quiet_step :=
  lazymatch goal with
  | |- quiet (ret _) => apply quiet_ret
  | |- quiet (raise _) => apply quiet_raise
  | |- quiet (lift _) => apply quiet_lift
  | |- quiet get_world => apply quiet_get_world
  | |- quiet (modify _) => apply quiet_modify; intros ?; repeat split
  | |- quiet (bind _ _) => apply quiet_bind; [|intros ?]
  | |- quiet (try_except2 _ _ _ _) =>
      apply quiet_try_except2; [|intros ?|intros ?]
  | |- quiet (M_for _ _ _) => apply quiet_M_for; intros ? ?
  | |- quiet (if ?b then _ else _) => destruct b
  | |- quiet (match ?x with _ => _ end) => destruct x
  end.

Lemma quiet_now env : quiet (now env).
Proof. unfold now. repeat quiet_step. Qed.

Lemma quiet_make_request env class_name url params :
  quiet (_make_request env class_name url params).
Proof.
  unfold _make_request. repeat quiet_step.
Qed.

Lemma quiet_CoinGecko_fetch_rates env cfg : quiet (CoinGecko_fetch_rates env cfg).
Proof.
  unfold CoinGecko_fetch_rates. repeat quiet_step; apply quiet_make_request.
Qed.

Lemma quiet_ExchangeRate_fetch_rates env cfg :
  quiet (ExchangeRate_fetch_rates env cfg).
Proof.
  unfold ExchangeRate_fetch_rates. repeat quiet_step; apply quiet_make_request.
Qed.

Lemma quiet_fetch_from_coingecko env cfg : quiet (_fetch_from_coingecko env cfg).
Proof.
  unfold _fetch_from_coingecko. repeat quiet_step.
  apply quiet_CoinGecko_fetch_rates.
Qed.

Lemma quiet_fetch_from_exchangerate env cfg :
  quiet (_fetch_from_exchangerate env cfg).
Proof.
  unfold _fetch_from_exchangerate. repeat quiet_step.
  apply quiet_ExchangeRate_fetch_rates.
Qed.

Lemma quiet_prepare_rates_data env cfg all_rates :
  quiet (_prepare_rates_data env cfg all_rates).
Proof.
  unfold _prepare_rates_data. repeat quiet_step; apply quiet_now.
Qed.

(** ** The store *)

Lemma dict_get_set_same {V} k (v : V) d : dict_get k (dict_set k v d) = Some v.
Proof.
  induction d as [|[k' v'] d IH]; cbn.
  - now rewrite String.eqb_refl.
  - destruct (String.eqb k k') eqn:E; cbn; now rewrite E.
Qed.

Lemma load_history_garbled cfg w text :
  dict_get (HISTORY_FILE_PATH cfg) (disk w) = Some (Garbled text) ->
  _load_history cfg w
  = (Ok (PList []),
     log_event (EvOpenRead (HISTORY_FILE_PATH cfg))
       (log_event (EvExists (HISTORY_FILE_PATH cfg)) w)).
Proof.
  intros H. unfold _load_history, path_exists, try_except, open_json_load,
    bind, get_world, modify, ret, raise, dict_mem. cbn.
  rewrite H. cbn. now rewrite H.
Qed.

(** C9.  When the history file exists but does not parse, and the write
    itself goes through, [save_historical_record] returns normally and
    the history file becomes the list holding the new record alone; no
    other file changes. *)
Theorem save_historical_record_over_garbled cfg w record text :
  dict_get (HISTORY_FILE_PATH cfg) (disk w) = Some (Garbled text) ->
  hd NoFault (faults w) = NoFault ->
  result_of (save_historical_record cfg record) w = Ok tt
  /\ disk (world_after (save_historical_record cfg record) w)
     = dict_set (HISTORY_FILE_PATH cfg) (Doc (PList [PDict record])) (disk w)
  /\ dict_get (HISTORY_FILE_PATH cfg)
       (disk (world_after (save_historical_record cfg record) w))
     = Some (Doc (PList [PDict record])).
Proof.
  intros Hh Hf.
  assert (E : save_historical_record cfg record w
              = (Ok tt, snd (save_historical_record cfg record w))
              /\ disk (snd (save_historical_record cfg record w))
                 = dict_set (HISTORY_FILE_PATH cfg)
                     (Doc (PList [PDict record])) (disk w)).
  { unfold save_historical_record, try_except, bind.
    rewrite (load_history_garbled cfg w text Hh).
    unfold lift, py_append, _atomic_write, bind, get_world, modify, ret.
    cbn. rewrite Hf. cbn.
    destruct (dict_get "id" record); cbn; split; reflexivity. }
  destruct E as [E1 E2]. unfold result_of, world_after.
  rewrite E2. split; [now rewrite E1|]. split; [reflexivity|].
  apply dict_get_set_same.
Qed.

Lemma save_historical_record_over_garbled_witness :
  result_of (save_historical_record config sample_record)
    (world_with [(HISTORY_FILE_PATH config, Garbled "[{")]) = Ok tt
  /\ disk (world_after (save_historical_record config sample_record)
             (world_with [(HISTORY_FILE_PATH config, Garbled "[{")]))
     = dict_set (HISTORY_FILE_PATH config) (Doc (PList [PDict sample_record]))
         [(HISTORY_FILE_PATH config, Garbled "[{")]
  /\ dict_get (HISTORY_FILE_PATH config)
       (disk (world_after (save_historical_record config sample_record)
                (world_with [(HISTORY_FILE_PATH config, Garbled "[{")])))
     = Some (Doc (PList [PDict sample_record])).
Proof.
  apply (save_historical_record_over_garbled config
           (world_with [(HISTORY_FILE_PATH config, Garbled "[{")])
           sample_record "[{"); reflexivity.
Defined.

(** ** The updater *)

Lemma fetch_from_coingecko_empty env cfg w :
  result_of (CoinGecko_fetch_rates env cfg) w = Ok [] ->
  result_of (_fetch_from_coingecko env cfg) w = Ok [].
Proof.
  unfold result_of, _fetch_from_coingecko, try_except2, bind.
  destruct (CoinGecko_fetch_rates env cfg w) as [[r|e] w1]; cbn [fst];
    [|discriminate].
  now intros [= ->].
Qed.

Lemma fetch_from_exchangerate_empty env cfg w :
  result_of (ExchangeRate_fetch_rates env cfg) w = Ok [] ->
  result_of (_fetch_from_exchangerate env cfg) w = Ok [].
Proof.
  unfold result_of, _fetch_from_exchangerate, try_except2, bind.
  destruct (ExchangeRate_fetch_rates env cfg w) as [[r|e] w1]; cbn [fst];
    [|discriminate].
  now intros [= ->].
Qed.

(** When both fetches come back empty the [try] block answers [False]
    without touching the store. *)
Lemma run_update_try_nothing_fetched env cfg w :
  (forall w', result_of (_fetch_from_coingecko env cfg) w' = Ok []) ->
  (forall w', result_of (_fetch_from_exchangerate env cfg) w' = Ok []) ->
  result_of (run_update_try env cfg) w = Ok false
  /\ same_files w (world_after (run_update_try env cfg) w).
Proof.
  intros Hc Hx. unfold result_of, world_after, run_update_try, bind in *.
  pose proof (Hc w) as E1. pose proof (quiet_fetch_from_coingecko env cfg w) as Q1.
  destruct (_fetch_from_coingecko env cfg w) as [[r1|e1] w1]; cbn [fst snd] in *;
    [|discriminate].
  injection E1 as ->. cbn [ret].
  pose proof (Hx w1) as E2.
  pose proof (quiet_fetch_from_exchangerate env cfg w1) as Q2.
  destruct (_fetch_from_exchangerate env cfg w1) as [[r2|e2] w2];
    cbn [fst snd] in *; [|discriminate].
  injection E2 as ->. cbn [ret fst snd].
  split; [reflexivity|]. eapply same_files_trans; eassumption.
Qed.

(** C5.  When both source clients return an empty mapping, [run_update]
    returns [False], and the files (snapshot and history among them) are
    exactly what they were: nothing written, no temporary file left, no
    write attempted. *)
Theorem run_update_all_sources_empty env cfg w :
  (forall w', result_of (CoinGecko_fetch_rates env cfg) w' = Ok []) ->
  (forall w', result_of (ExchangeRate_fetch_rates env cfg) w' = Ok []) ->
  result_of (run_update env cfg) w = Ok false
  /\ disk (world_after (run_update env cfg) w) = disk w
  /\ stray_tmp (world_after (run_update env cfg) w) = stray_tmp w
  /\ faults (world_after (run_update env cfg) w) = faults w.
Proof.
  intros Hc Hx.
  pose proof (run_update_try_nothing_fetched env cfg
                (set_total_rates 0 (set_successful_sources 0 w))
                (fun w' => fetch_from_coingecko_empty env cfg w' (Hc w'))
                (fun w' => fetch_from_exchangerate_empty env cfg w' (Hx w')))
    as [R [D [F S]]].
  unfold result_of, world_after, run_update, try_except, bind, modify in *.
  cbn [fst snd] in *.
  destruct (run_update_try env cfg _) as [[b|e] w1]; cbn [fst snd] in *;
    [|discriminate].
  injection R as ->. auto.
Qed.

Lemma run_update_all_sources_empty_witness :
  result_of (run_update env_nothing_known config) world_2_4 = Ok false
  /\ disk (world_after (run_update env_nothing_known config) world_2_4)
     = disk world_2_4
  /\ stray_tmp (world_after (run_update env_nothing_known config) world_2_4)
     = stray_tmp world_2_4
  /\ faults (world_after (run_update env_nothing_known config) world_2_4)
     = faults world_2_4.
Proof.
  apply (run_update_all_sources_empty env_nothing_known config world_2_4);
    intros w'; reflexivity.
Defined.

Lemma atomic_write_fault path data w :
  hd NoFault (faults w) <> NoFault ->
  exists e, result_of (_atomic_write path data) w = Raise e.
Proof.
  intros H. unfold result_of, _atomic_write, bind, get_world, modify, raise.
  cbn. destruct (hd NoFault (faults w)); [congruence| | |]; cbn; eauto.
Qed.

Lemma save_current_rates_fault cfg rates_data w :
  hd NoFault (faults w) <> NoFault ->
  exists e, result_of (save_current_rates cfg rates_data) w = Raise e.
Proof.
  intros H.
  destruct (atomic_write_fault (RATES_FILE_PATH cfg) (PDict rates_data) w H)
    as [e E].
  exists e. unfold result_of, save_current_rates, try_except, bind, raise in *.
  destruct (_atomic_write (RATES_FILE_PATH cfg) (PDict rates_data) w)
    as [[u|e'] w1]; cbn [fst] in *; [discriminate|]. exact E.
Qed.

(** With a write fault pending, the [try] block cannot come out with
    [True]: the snapshot write is the first write it attempts. *)
Lemma run_update_try_fault env cfg w :
  hd NoFault (faults w) <> NoFault ->
  result_of (run_update_try env cfg) w <> Ok true.
Proof.
  intros H. unfold result_of, run_update_try.
  unfold bind at 1.
  pose proof (quiet_fetch_from_coingecko env cfg w) as [_ [F1 _]].
  destruct (_fetch_from_coingecko env cfg w) as [[r1|e1] w1]; cbn [fst snd] in *;
    [|discriminate].
  rewrite <- F1 in H. clear F1 w.
  unfold bind at 1.
  match goal with |- context [?m w1] =>
    assert (Q : quiet m) by (repeat quiet_step);
    pose proof (Q w1) as [_ [F2 _]]; clear Q;
    destruct (m w1) as [[a1|e2] w2]; cbn [fst snd] in *; [|discriminate]
  end.
  rewrite <- F2 in H. clear F2 w1.
  unfold bind at 1.
  pose proof (quiet_fetch_from_exchangerate env cfg w2) as [_ [F3 _]].
  destruct (_fetch_from_exchangerate env cfg w2) as [[r2|e3] w3];
    cbn [fst snd] in *; [|discriminate].
  rewrite <- F3 in H. clear F3 w2.
  unfold bind at 1.
  match goal with |- context [?m w3] =>
    assert (Q : quiet m) by (repeat quiet_step);
    pose proof (Q w3) as [_ [F4 _]]; clear Q;
    destruct (m w3) as [[a2|e4] w4]; cbn [fst snd] in *; [|discriminate]
  end.
  rewrite <- F4 in H. clear F4 w3.
  destruct a2 as [|kv rest]; [discriminate|].
  unfold bind at 1.
  pose proof (quiet_prepare_rates_data env cfg (kv :: rest) w4) as [_ [F5 _]].
  destruct (_prepare_rates_data env cfg (kv :: rest) w4) as [[d|e5] w5];
    cbn [fst snd] in *; [|discriminate].
  rewrite <- F5 in H. clear F5 w4.
  unfold bind at 1.
  destruct (save_current_rates_fault cfg d w5 H) as [e E].
  unfold result_of in E.
  destruct (save_current_rates cfg d w5) as [[u|e6] w6]; cbn [fst] in *;
    discriminate.
Qed.

(** C8.  [run_update] never raises: it always returns a boolean; and when
    the snapshot write raises (a fault is pending for the first write of
    the run) the boolean is [False]. *)
Theorem run_update_never_raises env cfg w :
  (exists ok, result_of (run_update env cfg) w = Ok ok)
  /\ (hd NoFault (faults w) <> NoFault ->
      result_of (run_update env cfg) w = Ok false).
Proof.
  unfold result_of, run_update, try_except, bind, modify, ret. cbn [fst snd].
  pose proof (run_update_try_fault env cfg
                (set_total_rates 0 (set_successful_sources 0 w))) as F.
  unfold result_of in F.
  destruct (run_update_try env cfg _) as [[b|e] w1]; cbn [fst] in *.
  - split; [eauto|]. intros H. destruct b; [|reflexivity].
    exfalso. now apply F.
  - split; [eauto|reflexivity].
Qed.

Lemma run_update_never_raises_witness :
  result_of (run_update env_offline config) world_failing_rename = Ok false.
Proof.
  apply (proj2 (run_update_never_raises env_offline config world_failing_rename)).
  discriminate.
Defined.

(** ** The source clients *)

Lemma dict_get_set_other {V} k k' (v : V) d :
  String.eqb k k' = false -> dict_get k (dict_set k' v d) = dict_get k d.
Proof.
  intros Hk. induction d as [|[k1 v1] d IH]; cbn.
  - now rewrite Hk.
  - destruct (String.eqb k' k1) eqn:E; cbn.
    + apply String.eqb_eq in E. subst k1. now rewrite Hk.
    + now rewrite IH.
Qed.





Lemma fetch_from_coingecko_total env cfg w :
  exists rates, result_of (_fetch_from_coingecko env cfg) w = Ok rates.
Proof.
  unfold result_of, _fetch_from_coingecko, try_except2, ret.
  match goal with |- context [?m w] => destruct (m w) as [[r|e] w1] end;
    cbn [fst]; [eauto|].
  destruct (is_FetchError e); cbn; eauto.
Qed.






(* ================================================================== *)
(** * Further properties of the code *)

(** ** The resolver, step by step *)

(** Direct pair.  When the snapshot holds [{from}_{to}], [get_rate]
    returns that entry's rate and [updated_at] as they are stored,
    whether or not the reverse pair or a path through USD exists. *)
Theorem get_rate_direct registry cfg w from_code to_code o pairs entry r u :
  is_registered registry from_code = true ->
  is_registered registry to_code = true ->
  String.eqb from_code to_code = false ->
  dict_get (RATES_FILE_PATH cfg) (disk w) = Some (Doc (PDict o)) ->
  dict_get "pairs" o = Some (PDict pairs) ->
  dict_get (pair_key from_code to_code) pairs = Some (PDict entry) ->
  dict_get "rate" entry = Some r ->
  dict_get "updated_at" entry = Some u ->
  result_of (get_rate registry cfg from_code to_code) w = Ok (mkRate r u).
Proof.
  intros Rf Rt Hne Hd Hp He Hr Hu.
  rewrite get_rate_registered by assumption.
  rewrite get_rate_body_result, (snapshot_of_doc _ _ _ Hd).
  rewrite answer_from_usable by (unfold dict_mem; now rewrite Hp).
  rewrite Hne. unfold get_rate_lookup. cbn [py_getitem]. rewrite Hp.
  cbn [res_bind py_in]. unfold dict_mem. rewrite He.
  cbn [res_bind py_getitem]. rewrite He. cbn [res_bind py_getitem].
  now rewrite Hr, Hu.
Qed.

Lemma get_rate_direct_witness :
  result_of (get_rate [] config "EUR" "USD") world_2_4
  = Ok (mkRate (PFloat 2%float) (PStr "t1")).
Proof.
  apply (get_rate_direct [] config world_2_4 "EUR" "USD"
           [("pairs", PDict [("EUR_USD", entry_of 2%float "t1");
                             ("BTC_USD", entry_of 4%float "t2")]);
            ("last_refresh", PStr "t3")]
           [("EUR_USD", entry_of 2%float "t1");
            ("BTC_USD", entry_of 4%float "t2")]
           [("rate", PFloat 2%float); ("updated_at", PStr "t1");
            ("source", PStr "ExchangeRate-API")]); reflexivity.
Defined.

(** No path.  With none of the direct, reverse and USD pairs of the two
    codes in the snapshot, [get_rate] raises the rate-not-found error for
    the requested pair, wrapped by its outer handler: no default rate is
    returned. *)
Theorem get_rate_no_path registry cfg w from_code to_code o pairs :
  is_registered registry from_code = true ->
  is_registered registry to_code = true ->
  String.eqb from_code to_code = false ->
  dict_get (RATES_FILE_PATH cfg) (disk w) = Some (Doc (PDict o)) ->
  dict_get "pairs" o = Some (PDict pairs) ->
  dict_mem (pair_key from_code to_code) pairs = false ->
  dict_mem (pair_key to_code from_code) pairs = false ->
  dict_mem (pair_key from_code "USD") pairs = false ->
  dict_mem (pair_key "USD" from_code) pairs = false ->
  dict_mem (pair_key to_code "USD") pairs = false ->
  dict_mem (pair_key "USD" to_code) pairs = false ->
  result_of (get_rate registry cfg from_code to_code) w
  = Raise (FailedToGetRate (RateNotFound from_code to_code)).
Proof.
  intros Rf Rt Hne Hd Hp Hdir Hrev Hfu Huf Htu Hut.
  rewrite get_rate_registered by assumption.
  rewrite get_rate_body_result, (snapshot_of_doc _ _ _ Hd).
  rewrite answer_from_usable by (unfold dict_mem; now rewrite Hp).
  rewrite Hne, (get_rate_lookup_legs o pairs) by assumption.
  unfold leg_rate. now rewrite Hfu, Huf, Htu, Hut.
Qed.

Lemma get_rate_no_path_witness :
  result_of (get_rate [] config "RUB" "ETH") world_2_4
  = Raise (FailedToGetRate (RateNotFound "RUB" "ETH")).
Proof.
  apply (get_rate_no_path [] config world_2_4 "RUB" "ETH"
           [("pairs", PDict [("EUR_USD", entry_of 2%float "t1");
                             ("BTC_USD", entry_of 4%float "t2")]);
            ("last_refresh", PStr "t3")]
           [("EUR_USD", entry_of 2%float "t1");
            ("BTC_USD", entry_of 4%float "t2")]); reflexivity.
Defined.

(** A stored rate of zero.  When only [A_B] is stored and its rate is
    zero, [get_rate(B, A)] raises (the division by zero, wrapped): it
    does not return an infinite rate. *)
Theorem get_rate_inverse_of_zero registry cfg w A B o pairs entry r :
  is_registered registry A = true ->
  is_registered registry B = true ->
  String.eqb B A = false ->
  dict_get (RATES_FILE_PATH cfg) (disk w) = Some (Doc (PDict o)) ->
  dict_get "pairs" o = Some (PDict pairs) ->
  dict_get (pair_key A B) pairs = Some (PDict entry) ->
  dict_get "rate" entry = Some (PFloat r) ->
  is_zero r = true ->
  dict_get (pair_key B A) pairs = None ->
  result_of (get_rate registry cfg B A) w
  = Raise (FailedToGetRate ZeroDivisionError).
Proof.
  intros RA RB Hne Hd Hp He Hr Zr Habs.
  rewrite get_rate_registered by assumption.
  rewrite get_rate_body_result, (snapshot_of_doc _ _ _ Hd).
  rewrite answer_from_usable by (unfold dict_mem; now rewrite Hp).
  rewrite Hne. unfold get_rate_lookup. cbn [py_getitem]. rewrite Hp.
  cbn [res_bind py_in]. unfold dict_mem. rewrite Habs, He.
  cbn [res_bind py_getitem]. rewrite He. cbn [res_bind py_getitem].
  rewrite Hr. cbn [res_bind]. unfold py_div. cbn [as_number].
  now rewrite Zr.
Qed.

Lemma get_rate_inverse_of_zero_witness :
  result_of (get_rate [] config "USD" "BTC")
    (world_with [(RATES_FILE_PATH config,
                  Doc (PDict [("pairs", PDict [("BTC_USD", entry_of 0%float "t")])]))])
  = Raise (FailedToGetRate ZeroDivisionError).
Proof.
  apply (get_rate_inverse_of_zero [] config _ "BTC" "USD"
           [("pairs", PDict [("BTC_USD", entry_of 0%float "t")])]
           [("BTC_USD", entry_of 0%float "t")]
           [("rate", PFloat 0%float); ("updated_at", PStr "t");
            ("source", PStr "ExchangeRate-API")] 0%float); reflexivity.
Defined.

(** A zero leg.  On the path through USD a leg whose stored rate is zero
    counts as missing: with [{from}_USD] stored at rate zero, and the
    other leg resolving, [get_rate] raises the rate-not-found error. *)
Theorem get_rate_zero_leg registry cfg w from_code to_code o pairs f t :
  is_registered registry from_code = true ->
  is_registered registry to_code = true ->
  String.eqb from_code to_code = false ->
  dict_get (RATES_FILE_PATH cfg) (disk w) = Some (Doc (PDict o)) ->
  dict_get "pairs" o = Some (PDict pairs) ->
  dict_mem (pair_key from_code to_code) pairs = false ->
  dict_mem (pair_key to_code from_code) pairs = false ->
  dict_mem (pair_key from_code "USD") pairs = true ->
  stored_rate pairs (pair_key from_code "USD") = Some f ->
  is_zero f = true ->
  resolve_to_base pairs to_code = Some t ->
  result_of (get_rate registry cfg from_code to_code) w
  = Raise (FailedToGetRate (RateNotFound from_code to_code)).
Proof.
  intros Rf Rt Hne Hd Hp Hdir Hrev Hin Hf Zf Ht.
  rewrite get_rate_registered by assumption.
  rewrite get_rate_body_result, (snapshot_of_doc _ _ _ Hd).
  rewrite answer_from_usable by (unfold dict_mem; now rewrite Hp).
  rewrite Hne, (get_rate_lookup_legs o pairs) by assumption.
  rewrite (resolve_to_base_leg_rate _ _ _ Ht).
  unfold leg_rate. rewrite Hin, (stored_rate_getitem _ _ _ Hf).
  cbn [res_bind truthy]. now rewrite Zf.
Qed.

Lemma get_rate_zero_leg_witness :
  result_of (get_rate [] config "EUR" "BTC")
    (world_with [(RATES_FILE_PATH config,
                  Doc (PDict [("pairs", PDict [("EUR_USD", entry_of 0%float "t1");
                                               ("BTC_USD", entry_of 4%float "t2")])]))])
  = Raise (FailedToGetRate (RateNotFound "EUR" "BTC")).
Proof.
  apply (get_rate_zero_leg [] config _ "EUR" "BTC"
           [("pairs", PDict [("EUR_USD", entry_of 0%float "t1");
                             ("BTC_USD", entry_of 4%float "t2")])]
           [("EUR_USD", entry_of 0%float "t1");
            ("BTC_USD", entry_of 4%float "t2")] 0%float 4%float); reflexivity.
Defined.

(** ** What a run leaves untouched *)

Lemma keeps_ret {X A} (f : world -> X) (a : A) : keeps f (ret a).
Proof. intros w. reflexivity. Qed.

Lemma keeps_raise {X A} (f : world -> X) e : keeps f (raise (A := A) e).
Proof. intros w. reflexivity. Qed.

Lemma keeps_lift {X A} (f : world -> X) (r : res A) : keeps f (lift r).
Proof. intros w. reflexivity. Qed.

Lemma keeps_get_world {X} (f : world -> X) : keeps f get_world.
Proof. intros w. reflexivity. Qed.

Lemma keeps_modify {X} (f : world -> X) (g : world -> world) :
  (forall w, f (g w) = f w) -> keeps f (modify g).
Proof. intros H w. apply H. Qed.

Lemma keeps_bind {X A B} (f : world -> X) (m : M A) (k : A -> M B) :
  keeps f m -> (forall a, keeps f (k a)) -> keeps f (bind m k).
Proof.
  intros Hm Hk w. unfold bind. specialize (Hm w).
  destruct (m w) as [[a|e] w1]; cbn [snd] in *; [|exact Hm].
  now rewrite Hk.
Qed.

Lemma keeps_try_except {X A} (f : world -> X) (m : M A) (h : exn -> M A) :
  keeps f m -> (forall e, keeps f (h e)) -> keeps f (try_except m h).
Proof.
  intros Hm Hh w. unfold try_except. specialize (Hm w).
  destruct (m w) as [[a|e] w1]; cbn [snd] in *; [exact Hm|].
  now rewrite Hh.
Qed.

Lemma keeps_try_except2 {X A} (f : world -> X) (m : M A) p
    (h1 h2 : exn -> M A) :
  keeps f m -> (forall e, keeps f (h1 e)) -> (forall e, keeps f (h2 e)) ->
  keeps f (try_except2 m p h1 h2).
Proof.
  intros Hm H1 H2 w. unfold try_except2. specialize (Hm w).
  destruct (m w) as [[a|e] w1]; cbn [snd] in *; [exact Hm|].
  destruct (p e); [now rewrite H1|now rewrite H2].
Qed.

Lemma keeps_M_for {X A B} (f : world -> X) (l : list A) (body : B -> A -> M B) :
  (forall acc x, keeps f (body acc x)) -> forall acc, keeps f (M_for l acc body).
Proof.
  intros Hb. induction l as [|x l IH]; intros acc; cbn [M_for].
  - apply keeps_ret.
  - apply keeps_bind; [apply Hb|exact IH].
Qed.

Ltac keeps_step :=
  lazymatch goal with
  | |- keeps _ (ret _) => apply keeps_ret
  | |- keeps _ (raise _) => apply keeps_raise
  | |- keeps _ (lift _) => apply keeps_lift
  | |- keeps _ get_world => apply keeps_get_world
  | |- keeps _ (modify _) => apply keeps_modify; intros ?; reflexivity
  | |- keeps _ (bind _ _) => apply keeps_bind; [|intros ?]
  | |- keeps _ (try_except _ _) => apply keeps_try_except; [|intros ?]
  | |- keeps _ (try_except2 _ _ _ _) =>
      apply keeps_try_except2; [|intros ?|intros ?]
  | |- keeps _ (M_for _ _ _) => apply keeps_M_for; intros ? ?
  | |- keeps _ (if ?b then _ else _) => destruct b
  | |- keeps _ (match ?x with _ => _ end) => destruct x
  end.

Lemma keeps_path_exists {X} (f : world -> X) path :
  (forall e w, f (log_event e w) = f w) -> keeps f (path_exists path).
Proof.
  intros H. unfold path_exists. apply keeps_bind; [apply keeps_get_world|].
  intros w0. apply keeps_bind; [|intros ?; apply keeps_ret].
  apply keeps_modify. intros w. apply H.
Qed.

Lemma keeps_open_json_load {X} (f : world -> X) path :
  (forall e w, f (log_event e w) = f w) -> keeps f (open_json_load path).
Proof.
  intros H. unfold open_json_load. apply keeps_bind; [apply keeps_get_world|].
  intros w0. apply keeps_bind; [apply keeps_modify; intros w; apply H|].
  intros _. repeat keeps_step.
Qed.

Lemma keeps_read_current_rates {X} (f : world -> X) cfg :
  (forall e w, f (log_event e w) = f w) -> keeps f (read_current_rates cfg).
Proof.
  intros H. unfold read_current_rates.
  apply keeps_bind; [now apply keeps_path_exists|]. intros present.
  destruct (negb present); [apply keeps_ret|].
  apply keeps_try_except; [now apply keeps_open_json_load|].
  intros e. apply keeps_ret.
Qed.

Lemma keeps_get_rate {X} (f : world -> X) registry cfg from_code to_code :
  (forall e w, f (log_event e w) = f w) ->
  keeps f (get_rate registry cfg from_code to_code).
Proof.
  intros H. unfold get_rate, get_rate_body, RatesStorage_init.
  apply keeps_bind; [apply keeps_lift|]. intros _.
  apply keeps_bind; [apply keeps_lift|]. intros _.
  apply keeps_try_except; [|intros e; apply keeps_raise].
  apply keeps_bind.
  { apply keeps_bind; [|intros _]; apply keeps_modify; intros w; apply H. }
  intros _. apply keeps_bind; [now apply keeps_read_current_rates|].
  intros rates_data. repeat keeps_step.
Qed.

(** [get_rate] never changes the rate store: whatever the codes and the
    snapshot, and whether it returns or raises, the files of the store
    (the snapshot and the history among them) hold what they held, no
    temporary file of an atomic write is left and no atomic write is
    attempted.  The store is all the modelled world holds: the log
    records of the [log_action] decorator go to the logging system and
    are not part of it. *)
Theorem get_rate_keeps_store registry cfg from_code to_code w :
  same_files w (world_after (get_rate registry cfg from_code to_code) w).
Proof.
  unfold same_files, world_after.
  repeat split; apply (keeps_get_rate _ registry cfg from_code to_code);
    reflexivity.
Qed.

(** ** The store: writing *)

Lemma atomic_write_ok path data w :
  hd NoFault (faults w) = NoFault ->
  _atomic_write path data w
  = (Ok tt,
     set_disk (dict_set path (Doc data) (disk w))
       (log_event (EvReplace path)
          (log_event (EvTmpCreate path) (set_faults (tl (faults w)) w)))).
Proof.
  intros H. unfold _atomic_write, bind, get_world, modify. cbn.
  now rewrite H.
Qed.

(** A failed snapshot write.  Whatever step of the atomic write fails,
    [save_current_rates] raises and every file holds what it held: the
    snapshot is never half-written.  The temporary file is removed when
    the rename fails, and stays behind when the dump fails; in that case,
    and when the temporary file cannot be created, what is raised is the
    handler's own [UnboundLocalError], not the original error. *)
Theorem save_current_rates_failure cfg rates_data w fault :
  hd NoFault (faults w) = fault ->
  fault <> NoFault ->
  result_of (save_current_rates cfg rates_data) w
  = Raise (match fault with FailReplace => OSError | _ => UnboundLocalError end)
  /\ disk (world_after (save_current_rates cfg rates_data) w) = disk w
  /\ stray_tmp (world_after (save_current_rates cfg rates_data) w)
     = stray_tmp w + (match fault with FailDump => 1 | _ => 0 end).
Proof.
  intros Hf Hne.
  unfold result_of, world_after, save_current_rates, try_except, _atomic_write,
    bind, get_world, modify, raise. cbn. rewrite Hf.
  destruct fault; [congruence| | |]; cbn; repeat split; lia.
Qed.

Lemma save_current_rates_failure_witness :
  result_of (save_current_rates config [("pairs", PDict [])]) world_failing_rename
  = Raise OSError
  /\ disk (world_after (save_current_rates config [("pairs", PDict [])])
             world_failing_rename)
     = disk world_failing_rename
  /\ stray_tmp (world_after (save_current_rates config [("pairs", PDict [])])
                  world_failing_rename)
     = stray_tmp world_failing_rename + 0.
Proof.
  apply (save_current_rates_failure config [("pairs", PDict [])]
           world_failing_rename FailReplace); [reflexivity|discriminate].
Defined.

(** Round trip.  After a snapshot write that goes through,
    [read_current_rates] returns the dictionary that was saved. *)
Theorem read_after_save_current_rates cfg rates_data w :
  hd NoFault (faults w) = NoFault ->
  result_of (read_current_rates cfg)
    (world_after (save_current_rates cfg rates_data) w)
  = Ok (PDict rates_data).
Proof.
  intros Hf. rewrite read_current_rates_result.
  unfold world_after, save_current_rates, try_except, bind.
  rewrite (atomic_write_ok _ _ _ Hf). unfold lift, ret, raise.
  cbn [py_get res_bind].
  assert (E : forall w' : world,
             disk w' = dict_set (RATES_FILE_PATH cfg) (Doc (PDict rates_data)) (disk w) ->
             snapshot_of cfg (disk w') = PDict rates_data).
  { intros w' ->. unfold snapshot_of. now rewrite dict_get_set_same. }
  destruct (dict_get "pairs" rates_data) as [v|]; cbn [res_bind];
    [destruct (py_len v); cbn [snd]|cbn [py_len snd]]; f_equal; now apply E.
Qed.

Lemma read_after_save_current_rates_witness :
  result_of (read_current_rates config)
    (world_after (save_current_rates config [("pairs", PDict []); ("last_refresh", PStr "t")])
       world_2_4)
  = Ok (PDict [("pairs", PDict []); ("last_refresh", PStr "t")]).
Proof.
  apply (read_after_save_current_rates config
           [("pairs", PDict []); ("last_refresh", PStr "t")] world_2_4).
  reflexivity.
Defined.

(** An exception after the write.  When the dictionary's ['pairs'] value
    has no length, [save_current_rates] still replaces the snapshot file
    and only then raises [TypeError], out of the log line that counts the
    pairs. *)
Theorem save_current_rates_raises_after_write cfg rates_data w v :
  hd NoFault (faults w) = NoFault ->
  dict_get "pairs" rates_data = Some v ->
  is_sized v = false ->
  result_of (save_current_rates cfg rates_data) w = Raise TypeError
  /\ dict_get (RATES_FILE_PATH cfg)
       (disk (world_after (save_current_rates cfg rates_data) w))
     = Some (Doc (PDict rates_data)).
Proof.
  intros Hf Hp Hs.
  unfold result_of, world_after, save_current_rates, try_except, bind.
  rewrite (atomic_write_ok _ _ _ Hf). unfold lift, ret, raise.
  cbn [py_get res_bind]. rewrite Hp. cbn [res_bind].
  destruct v; try discriminate; cbn; (split; [reflexivity|]);
    apply dict_get_set_same.
Qed.

Lemma save_current_rates_raises_after_write_witness :
  result_of (save_current_rates config [("pairs", PFloat 1%float)]) (world_with [])
  = Raise TypeError
  /\ dict_get (RATES_FILE_PATH config)
       (disk (world_after (save_current_rates config [("pairs", PFloat 1%float)])
                (world_with [])))
     = Some (Doc (PDict [("pairs", PFloat 1%float)])).
Proof.
  apply (save_current_rates_raises_after_write config
           [("pairs", PFloat 1%float)] (world_with []) (PFloat 1%float));
    reflexivity.
Defined.

Lemma load_history_result cfg w :
  exists w', _load_history cfg w
             = (Ok (match dict_get (HISTORY_FILE_PATH cfg) (disk w) with
                    | Some (Doc v) => v
                    | _ => PList []
                    end), w')
             /\ disk w' = disk w /\ faults w' = faults w
             /\ stray_tmp w' = stray_tmp w /\ ticks w' = ticks w.
Proof.
  unfold _load_history, path_exists, try_except, open_json_load, bind,
    get_world, modify, ret, raise, dict_mem. cbn.
  destruct (dict_get (HISTORY_FILE_PATH cfg) (disk w)) as [[t|v]|] eqn:E; cbn;
    rewrite ?E; eexists; (split; [reflexivity|]); repeat split.
Qed.

(** Appending.  When the history path holds a list (or nothing, or text
    that does not parse, which count as the empty list) and the write goes
    through, [save_historical_record] returns normally and the file
    becomes the old records followed by the new one. *)
Theorem save_historical_record_appends cfg w record l :
  stored_history (dict_get (HISTORY_FILE_PATH cfg) (disk w)) = Some l ->
  hd NoFault (faults w) = NoFault ->
  result_of (save_historical_record cfg record) w = Ok tt
  /\ disk (world_after (save_historical_record cfg record) w)
     = dict_set (HISTORY_FILE_PATH cfg) (Doc (PList (l ++ [PDict record])))
         (disk w).
Proof.
  intros Hl Hf.
  destruct (load_history_result cfg w) as [w1 [E [D [F _]]]].
  assert (Hv : (match dict_get (HISTORY_FILE_PATH cfg) (disk w) with
                | Some (Doc v) => v
                | _ => PList []
                end) = PList l).
  { destruct (dict_get (HISTORY_FILE_PATH cfg) (disk w)) as [[t|v]|];
      cbn in Hl; try (now injection Hl as <-).
    destruct v; try discriminate. now injection Hl as ->. }
  rewrite Hv in E.
  unfold result_of, world_after, save_historical_record, try_except, bind.
  rewrite E. unfold lift. cbn [py_append].
  rewrite atomic_write_ok by now rewrite F.
  cbn [py_get]. unfold ret.
  destruct (dict_get "id" record); cbn; now rewrite D.
Qed.

Lemma save_historical_record_appends_witness :
  result_of (save_historical_record config sample_record)
    (world_with [(HISTORY_FILE_PATH config, Doc (PList [PStr "old"]))]) = Ok tt
  /\ disk (world_after (save_historical_record config sample_record)
             (world_with [(HISTORY_FILE_PATH config, Doc (PList [PStr "old"]))]))
     = dict_set (HISTORY_FILE_PATH config)
         (Doc (PList ([PStr "old"] ++ [PDict sample_record])))
         [(HISTORY_FILE_PATH config, Doc (PList [PStr "old"]))].
Proof.
  apply (save_historical_record_appends config
           (world_with [(HISTORY_FILE_PATH config, Doc (PList [PStr "old"]))])
           sample_record [PStr "old"]); reflexivity.
Defined.

(** A history document that is not a list.  [save_historical_record]
    raises [AttributeError] (from [append]) and attempts no write: the
    files stay as they are. *)
Theorem save_historical_record_not_a_list cfg w record v :
  dict_get (HISTORY_FILE_PATH cfg) (disk w) = Some (Doc v) ->
  stored_history (Some (Doc v)) = None ->
  result_of (save_historical_record cfg record) w = Raise AttributeError
  /\ same_files w (world_after (save_historical_record cfg record) w).
Proof.
  intros Hd Hv.
  destruct (load_history_result cfg w) as [w1 [E [D [F [S _]]]]].
  rewrite Hd in E.
  unfold result_of, world_after, save_historical_record, try_except, bind.
  rewrite E. unfold lift, raise.
  destruct v; try discriminate; cbn; repeat split; assumption.
Qed.

Lemma save_historical_record_not_a_list_witness :
  result_of (save_historical_record config sample_record)
    (world_with [(HISTORY_FILE_PATH config, Doc (PDict []))])
  = Raise AttributeError
  /\ same_files (world_with [(HISTORY_FILE_PATH config, Doc (PDict []))])
       (world_after (save_historical_record config sample_record)
          (world_with [(HISTORY_FILE_PATH config, Doc (PDict []))])).
Proof.
  apply (save_historical_record_not_a_list config
           (world_with [(HISTORY_FILE_PATH config, Doc (PDict []))])
           sample_record (PDict [])); reflexivity.
Defined.

(** ** The updater: history *)

Lemma create_historical_record_run env a b r source meta w :
  exists d, create_historical_record env a b r source meta w
            = (Ok d, set_ticks (S (ticks w)) w)
            /\ dict_get "rate" d = Some (PFloat r)
            /\ dict_get "meta" d = Some (if truthy meta then meta else PDict []).
Proof. eexists. repeat split. Qed.

Lemma save_historical_record_run cfg w record l :
  stored_history (dict_get (HISTORY_FILE_PATH cfg) (disk w)) = Some l ->
  faults w = [] ->
  exists w', save_historical_record cfg record w = (Ok tt, w')
             /\ disk w' = dict_set (HISTORY_FILE_PATH cfg)
                            (Doc (PList (l ++ [PDict record]))) (disk w)
             /\ faults w' = [].
Proof.
  intros Hl Hf.
  destruct (load_history_result cfg w) as [w1 [E [D [F _]]]].
  assert (Hv : (match dict_get (HISTORY_FILE_PATH cfg) (disk w) with
                | Some (Doc v) => v
                | _ => PList []
                end) = PList l).
  { destruct (dict_get (HISTORY_FILE_PATH cfg) (disk w)) as [[t|v]|];
      cbn in Hl; try (now injection Hl as <-).
    destruct v; try discriminate. now injection Hl as ->. }
  rewrite Hv in E.
  unfold save_historical_record, try_except, bind.
  rewrite E. unfold lift. cbn [py_append].
  rewrite atomic_write_ok by now rewrite F, Hf.
  cbn [py_get]. unfold ret.
  destruct (dict_get "id" record); cbn; eexists; (split; [reflexivity|]);
    cbn; rewrite D, F, Hf; split; reflexivity.
Qed.

(** One record per pair.  When every key splits in two, no write fails
    and the history path holds a list (or nothing, or unparseable text),
    [_save_historical_records] leaves the old records followed by one new
    record for each pair, in the order of the mapping. *)
Theorem save_historical_records_grows env cfg all_rates w l :
  forallb (fun item => unpacks (fst item)) all_rates = true ->
  faults w = [] ->
  stored_history (dict_get (HISTORY_FILE_PATH cfg) (disk w)) = Some l ->
  exists records,
    stored_history
      (dict_get (HISTORY_FILE_PATH cfg)
         (disk (world_after (_save_historical_records env cfg all_rates) w)))
    = Some (l ++ records)%list
    /\ Forall2 record_of_pair all_rates records
    /\ List.length records = List.length all_rates.
Proof.
  unfold world_after, _save_historical_records.
  revert w l. induction all_rates as [|[key r] rest IH]; intros w l Hk Hf Hl.
  - exists []. cbn. rewrite app_nil_r. auto.
  - cbn [forallb fst] in Hk. apply andb_true_iff in Hk as [Hk Hrest].
    unfold unpacks in Hk.
    destruct (unpack_pair key) as [[a b]|] eqn:Eu; [|discriminate].
    cbn [M_for fst snd]. unfold bind at 1. unfold bind at 1. unfold lift at 1.
    rewrite Eu. cbn [fst snd].
    destruct (create_historical_record_run env a b r (source_of cfg a)
                (PDict [("raw_pair", PStr key)]) w) as [d [Ec [Hr Hm]]].
    unfold bind at 1. rewrite Ec.
    destruct (save_historical_record_run cfg (set_ticks (S (ticks w)) w) d l
                Hl Hf) as [w1 [Es [D1 F1]]].
    unfold try_except at 1. rewrite Es.
    destruct (IH w1 (l ++ [PDict d])%list Hrest F1) as [records [H1 [H2 H3]]].
    { rewrite D1, dict_get_set_same. reflexivity. }
    exists (PDict d :: records). rewrite H1, <- app_assoc. cbn [app length].
    repeat split; [|now rewrite H3].
    constructor; [|exact H2]. exists d. auto.
Qed.

Lemma save_historical_records_grows_witness :
  exists records,
    stored_history
      (dict_get (HISTORY_FILE_PATH config)
         (disk (world_after
                  (_save_historical_records env_offline config
                     [("EUR_USD", 0.93%float); ("GBP_USD", 0.79%float)])
                  (world_with []))))
    = Some ([] ++ records)%list
    /\ Forall2 record_of_pair
         [("EUR_USD", 0.93%float); ("GBP_USD", 0.79%float)] records
    /\ List.length records = 2.
Proof.
  apply (save_historical_records_grows env_offline config
           [("EUR_USD", 0.93%float); ("GBP_USD", 0.79%float)]
           (world_with []) []); reflexivity.
Defined.

(** Storage failures are swallowed, bad keys are not.
    [_save_historical_records] returns normally whatever happens to the
    writes, as long as every key splits in two at ['_']; otherwise it
    raises [ValueError] from the unpacking. *)
Theorem save_historical_records_result env cfg all_rates w :
  result_of (_save_historical_records env cfg all_rates) w
  = if forallb (fun item => unpacks (fst item)) all_rates
    then Ok tt else Raise ValueError.
Proof.
  unfold result_of, _save_historical_records.
  revert w. induction all_rates as [|[key r] rest IH]; intros w; [reflexivity|].
  cbn [forallb fst M_for snd]. unfold unpacks at 1, unpack_pair.
  unfold bind at 1. unfold bind at 1. unfold lift at 1.
  destruct (split "_" key) as [|a [|b [|c parts]]]; cbn [fst snd andb];
    try reflexivity.
  unfold bind at 1.
  destruct (create_historical_record_run env a b r (source_of cfg a)
              (PDict [("raw_pair", PStr key)]) w) as [d [Ec _]].
  rewrite Ec. unfold try_except at 1.
  destruct (save_historical_record cfg d _) as [[[]|e] w1]; cbn [ret]; apply IH.
Qed.

(** ** Dictionaries *)

Lemma dict_get_set {V} k k' (v : V) d :
  dict_get k (dict_set k' v d)
  = if String.eqb k k' then Some v else dict_get k d.
Proof.
  destruct (String.eqb k k') eqn:E.
  - apply String.eqb_eq in E. subst. apply dict_get_set_same.
  - now apply dict_get_set_other.
Qed.

Lemma keys_dict_set {V} k k' (v : V) d :
  In k (map fst (dict_set k' v d)) <-> k = k' \/ In k (map fst d).
Proof.
  induction d as [|[k1 v1] d IH]; cbn.
  - intuition congruence.
  - destruct (String.eqb k' k1) eqn:E; cbn.
    + apply String.eqb_eq in E. subst. intuition congruence.
    + rewrite IH. intuition congruence.
Qed.

Lemma NoDup_dict_set {V} k (v : V) d :
  NoDup (map fst d) -> NoDup (map fst (dict_set k v d)).
Proof.
  induction d as [|[k1 v1] d IH]; cbn; intros H.
  - constructor; [intros []|constructor].
  - inversion H as [|? ? Hn Hd]; subst.
    destruct (String.eqb k k1) eqn:E; cbn.
    + now constructor.
    + constructor; [|now apply IH].
      rewrite keys_dict_set. intros [->|Hin]; [|contradiction].
      now rewrite String.eqb_refl in E.
Qed.

Lemma NoDup_dict_update {V} (d o : dict V) :
  NoDup (map fst d) -> NoDup (map fst (dict_update d o)).
Proof.
  unfold dict_update. revert d.
  induction o as [|[k v] o IH]; intros d H; cbn; [exact H|].
  apply IH. now apply NoDup_dict_set.
Qed.

Lemma keys_dict_update {V} k (d o : dict V) :
  In k (map fst (dict_update d o)) -> In k (map fst d) \/ In k (map fst o).
Proof.
  unfold dict_update. revert d.
  induction o as [|[k1 v1] o IH]; intros d H; cbn in *; [now left|].
  apply IH in H as [H|H]; [|now right; right].
  apply keys_dict_set in H as [->|H]; [right; now left|now left].
Qed.

Lemma dict_get_none_not_key {V} k (d : dict V) :
  ~ In k (map fst d) -> dict_get k d = None.
Proof.
  induction d as [|[k1 v1] d IH]; cbn; intros H; [reflexivity|].
  destruct (String.eqb k k1) eqn:E.
  - apply String.eqb_eq in E. subst. exfalso. apply H. now left.
  - apply IH. intros Hin. apply H. now right.
Qed.

(** [update] lets the incoming mapping win: a key of [other] gets the
    value [other] gives it, any other key keeps its value. *)
Lemma dict_get_dict_update {V} k (d o : dict V) :
  NoDup (map fst o) ->
  dict_get k (dict_update d o)
  = match dict_get k o with Some v => Some v | None => dict_get k d end.
Proof.
  unfold dict_update. revert d.
  induction o as [|[k1 v1] o IH]; intros d H; cbn [fold_left fst snd];
    [reflexivity|].
  inversion H as [|? ? Hn Hd]; subst. rewrite IH by assumption.
  cbn [dict_get]. rewrite dict_get_set.
  destruct (String.eqb k k1) eqn:E; [|reflexivity].
  apply String.eqb_eq in E. subst.
  now rewrite (dict_get_none_not_key k1 o Hn).
Qed.

Lemma dict_update_nil {V} (d o : dict V) :
  dict_update d o = [] -> d = [] /\ o = [].
Proof.
  unfold dict_update. revert d.
  induction o as [|[k v] o IH]; intros d H; cbn in H; [auto|].
  apply IH in H as [H _]. destruct d as [|[k1 v1] d]; cbn in H; [discriminate|].
  destruct (String.eqb k k1); discriminate.
Qed.

(** ** The updater: the snapshot it prepares *)

Lemma now_run env w : now env w = (Ok (utcnow env (ticks w)), set_ticks (S (ticks w)) w).
Proof. reflexivity. Qed.

Lemma stored_rate_set pairs key k r u s :
  stored_rate (dict_set key (PDict [("rate", PFloat r); ("updated_at", u);
                                    ("source", s)]) pairs) k
  = if String.eqb k key then Some r else stored_rate pairs k.
Proof.
  unfold stored_rate. rewrite dict_get_set.
  destruct (String.eqb k key); reflexivity.
Qed.

Lemma stored_source_set pairs key k r u s :
  stored_source (dict_set key (PDict [("rate", PFloat r); ("updated_at", u);
                                      ("source", PStr s)]) pairs) k
  = if String.eqb k key then Some s else stored_source pairs k.
Proof.
  unfold stored_source. rewrite dict_get_set.
  destruct (String.eqb k key); reflexivity.
Qed.

Lemma prepare_pairs_loop env cfg all_rates :
  forall acc_pairs acc_rates w,
    forallb (fun item => unpacks (fst item)) all_rates = true ->
    (forall k, stored_rate acc_pairs k = dict_get k acc_rates) ->
    (forall k, dict_mem k acc_rates = true ->
               stored_source acc_pairs k = Some (source_of cfg (from_part k))) ->
    exists pairs w',
      M_for all_rates acc_pairs (fun pairs item =>
        let key := fst item in
        let r := snd item in
        ft <~ unpack_pair key ;;
        stamp <- now env ;;
        ret (dict_set key
               (PDict [("rate", PFloat r);
                       ("updated_at", PStr (isoformat stamp));
                       ("source", PStr (source_of cfg (fst ft)))])
               pairs)) w
      = (Ok pairs, w')
      /\ ticks w' = ticks w + List.length all_rates
      /\ (forall k, stored_rate pairs k
                    = dict_get k (dict_update acc_rates all_rates))
      /\ (forall k, dict_mem k (dict_update acc_rates all_rates) = true ->
                    stored_source pairs k = Some (source_of cfg (from_part k))).
Proof.
  induction all_rates as [|[key r] rest IH]; intros acc_pairs acc_rates w Hk Hr Hs.
  - exists acc_pairs, w. cbn. rewrite Nat.add_0_r. auto.
  - cbn [forallb fst] in Hk. apply andb_true_iff in Hk as [Hk Hrest].
    unfold unpacks in Hk.
    destruct (unpack_pair key) as [[a b]|] eqn:Eu; [|discriminate].
    cbn [M_for fst snd]. unfold bind at 1. unfold bind at 1. unfold lift at 1.
    rewrite Eu. unfold bind at 1. rewrite now_run. cbn [ret fst].
    destruct (IH (dict_set key
                    (PDict [("rate", PFloat r);
                            ("updated_at", PStr (isoformat (utcnow env (ticks w))));
                            ("source", PStr (source_of cfg a))]) acc_pairs)
                 (dict_set key r acc_rates)
                 (set_ticks (S (ticks w)) w) Hrest)
      as [pairs [w' [E [T [R S]]]]].
    + intros k. rewrite stored_rate_set, dict_get_set, Hr. reflexivity.
    + intros k. rewrite stored_source_set. unfold dict_mem.
      rewrite dict_get_set.
      destruct (String.eqb k key) eqn:Ek.
      * apply String.eqb_eq in Ek. subst k. intros _.
        unfold from_part. now rewrite Eu.
      * apply Hs.
    + exists pairs, w'. split; [exact E|]. split; [cbn in T |- *; lia|].
      split; assumption.
Qed.

Lemma prepare_rates_data_run env cfg all_rates w :
  forallb (fun item => unpacks (fst item)) all_rates = true ->
  exists pairs w',
    _prepare_rates_data env cfg all_rates w
    = (Ok [("pairs", PDict pairs);
           ("last_refresh",
            PStr (isoformat (utcnow env (ticks w + List.length all_rates))))],
       w')
    /\ (forall k, stored_rate pairs k = dict_get k (dict_update [] all_rates))
    /\ (forall k, dict_mem k (dict_update [] all_rates) = true ->
                  stored_source pairs k = Some (source_of cfg (from_part k))).
Proof.
  intros Hk.
  destruct (prepare_pairs_loop env cfg all_rates [] [] w Hk)
    as [pairs [w' [E [T [R S]]]]]; [reflexivity|discriminate|].
  exists pairs. eexists. unfold _prepare_rates_data, bind at 1.
  match goal with
  | |- context [M_for ?l ?a ?b ?w0] =>
      replace (M_for l a b w0) with (Ok pairs, w') by (symmetry; exact E)
  end. unfold bind at 1. rewrite now_run, T. cbn [ret].
  split; [reflexivity|]. split; assumption.
Qed.

(** What [_prepare_rates_data] builds.  For a mapping with distinct keys
    that all split in two, it returns a dictionary with a ['pairs'] object
    and a ['last_refresh'] stamp; ['pairs'] holds exactly the keys of the
    mapping, each with its rate and with the source decided by the first
    part of the key alone: CoinGecko when it is one of the configured
    crypto currencies, ExchangeRate-API otherwise. *)
Theorem prepare_rates_data_pairs env cfg all_rates w :
  NoDup (map fst all_rates) ->
  forallb (fun item => unpacks (fst item)) all_rates = true ->
  exists pairs stamp,
    result_of (_prepare_rates_data env cfg all_rates) w
    = Ok [("pairs", PDict pairs); ("last_refresh", PStr stamp)]
    /\ (forall k, stored_rate pairs k = dict_get k all_rates)
    /\ (forall k, dict_mem k all_rates = true ->
                  stored_source pairs k = Some (source_of cfg (from_part k))).
Proof.
  intros Hn Hk.
  destruct (prepare_rates_data_run env cfg all_rates w Hk)
    as [pairs [w' [E [R S]]]].
  assert (G : forall k, dict_get k (dict_update [] all_rates) = dict_get k all_rates).
  { intros k. rewrite dict_get_dict_update by assumption.
    now destruct (dict_get k all_rates). }
  exists pairs. eexists. unfold result_of. rewrite E. split; [reflexivity|].
  split.
  - intros k. now rewrite R.
  - intros k Hm. apply S. unfold dict_mem in *. now rewrite G.
Qed.

Lemma prepare_rates_data_pairs_witness :
  exists pairs stamp,
    result_of (_prepare_rates_data env_offline config
                 [("BTC_USD", 4%float); ("EUR_USD", 2%float)]) (world_with [])
    = Ok [("pairs", PDict pairs); ("last_refresh", PStr stamp)]
    /\ (forall k, stored_rate pairs k
                  = dict_get k [("BTC_USD", 4%float); ("EUR_USD", 2%float)])
    /\ (forall k, dict_mem k [("BTC_USD", 4%float); ("EUR_USD", 2%float)] = true ->
                  stored_source pairs k = Some (source_of config (from_part k))).
Proof.
  apply (prepare_rates_data_pairs env_offline config
           [("BTC_USD", 4%float); ("EUR_USD", 2%float)] (world_with [])).
  - repeat constructor; cbn; intuition discriminate.
  - reflexivity.
Defined.

(** ** The updater: a whole run *)

Lemma keeps_make_request {X} (f : world -> X) env class_name url params :
  (forall e w, f (log_event e w) = f w) ->
  keeps f (_make_request env class_name url params).
Proof.
  intros H. unfold _make_request.
  apply keeps_bind; [apply keeps_modify; intros w; apply H|].
  intros _. repeat keeps_step.
Qed.

Lemma keeps_CoinGecko_fetch_rates {X} (f : world -> X) env cfg :
  (forall e w, f (log_event e w) = f w) ->
  keeps f (CoinGecko_fetch_rates env cfg).
Proof.
  intros H. unfold CoinGecko_fetch_rates.
  repeat keeps_step; now apply keeps_make_request.
Qed.

Lemma keeps_ExchangeRate_fetch_rates {X} (f : world -> X) env cfg :
  (forall e w, f (log_event e w) = f w) ->
  keeps f (ExchangeRate_fetch_rates env cfg).
Proof.
  intros H. unfold ExchangeRate_fetch_rates.
  repeat keeps_step; now apply keeps_make_request.
Qed.

(** What a fetch wrapper does to the world: it adds the number of rates
    it got to [total_rates] and touches nothing else that matters. *)
Lemma fetch_from_coingecko_run env cfg w :
  exists w',
    _fetch_from_coingecko env cfg w
    = (Ok (fetched (result_of (CoinGecko_fetch_rates env cfg) w)), w')
    /\ disk w' = disk w /\ faults w' = faults w
    /\ successful_sources w' = successful_sources w
    /\ total_rates w'
       = total_rates w
         + List.length (fetched (result_of (CoinGecko_fetch_rates env cfg) w)).
Proof.
  pose proof (keeps_CoinGecko_fetch_rates disk env cfg (fun _ _ => eq_refl) w) as D.
  pose proof (keeps_CoinGecko_fetch_rates faults env cfg (fun _ _ => eq_refl) w) as F.
  pose proof (keeps_CoinGecko_fetch_rates successful_sources env cfg
                (fun _ _ => eq_refl) w) as S.
  pose proof (keeps_CoinGecko_fetch_rates total_rates env cfg
                (fun _ _ => eq_refl) w) as T.
  unfold result_of, _fetch_from_coingecko, try_except2, bind, get_world,
    modify, ret.
  destruct (CoinGecko_fetch_rates env cfg w) as [[r|e] w1]; cbn [fst snd] in *.
  - eexists. split; [reflexivity|]. cbn. rewrite D, F, S, T. auto.
  - exists w1. split; [now destruct (is_FetchError e)|].
    cbn. rewrite D, F, S, T. repeat split. lia.
Qed.

Lemma fetch_from_exchangerate_run env cfg w :
  exists w',
    _fetch_from_exchangerate env cfg w
    = (Ok (fetched (result_of (ExchangeRate_fetch_rates env cfg) w)), w')
    /\ disk w' = disk w /\ faults w' = faults w
    /\ successful_sources w' = successful_sources w
    /\ total_rates w'
       = total_rates w
         + List.length (fetched (result_of (ExchangeRate_fetch_rates env cfg) w)).
Proof.
  pose proof (keeps_ExchangeRate_fetch_rates disk env cfg (fun _ _ => eq_refl) w) as D.
  pose proof (keeps_ExchangeRate_fetch_rates faults env cfg (fun _ _ => eq_refl) w) as F.
  pose proof (keeps_ExchangeRate_fetch_rates successful_sources env cfg
                (fun _ _ => eq_refl) w) as S.
  pose proof (keeps_ExchangeRate_fetch_rates total_rates env cfg
                (fun _ _ => eq_refl) w) as T.
  unfold result_of, _fetch_from_exchangerate, try_except2, bind, get_world,
    modify, ret.
  destruct (ExchangeRate_fetch_rates env cfg w) as [[r|e] w1]; cbn [fst snd] in *.
  - eexists. split; [reflexivity|]. cbn. rewrite D, F, S, T. auto.
  - exists w1. split; [now destruct (is_FetchError e)|].
    cbn. rewrite D, F, S, T. repeat split. lia.
Qed.

Lemma keeps_atomic_write_elsewhere cfg path data :
  String.eqb (RATES_FILE_PATH cfg) path = false ->
  keeps (committed cfg) (_atomic_write path data).
Proof.
  intros Hp w. unfold committed, _atomic_write, bind, get_world, modify, raise.
  cbn. destruct (hd NoFault (faults w)); cbn; try reflexivity.
  now rewrite dict_get_set_other.
Qed.

Lemma keeps_save_historical_records env cfg all_rates :
  String.eqb (RATES_FILE_PATH cfg) (HISTORY_FILE_PATH cfg) = false ->
  keeps (committed cfg) (_save_historical_records env cfg all_rates).
Proof.
  intros Hp.
  unfold _save_historical_records, create_historical_record,
    save_historical_record, _load_history, now.
  repeat keeps_step;
    first [ now apply keeps_atomic_write_elsewhere
          | now apply keeps_path_exists
          | now apply keeps_open_json_load ].
Qed.

Lemma keeps_now {X} (f : world -> X) env :
  (forall n w, f (set_ticks n w) = f w) -> keeps f (now env).
Proof.
  intros H. unfold now. apply keeps_bind; [apply keeps_get_world|].
  intros w0. apply keeps_bind; [|intros _; apply keeps_ret].
  apply keeps_modify. intros w. apply H.
Qed.

Lemma keeps_prepare env cfg all_rates w :
  faults (snd (_prepare_rates_data env cfg all_rates w)) = faults w
  /\ successful_sources (snd (_prepare_rates_data env cfg all_rates w))
     = successful_sources w
  /\ total_rates (snd (_prepare_rates_data env cfg all_rates w)) = total_rates w.
Proof.
  assert (K : forall X (f : world -> X),
             (forall n w, f (set_ticks n w) = f w) ->
             keeps f (_prepare_rates_data env cfg all_rates)).
  { intros X f H. unfold _prepare_rates_data.
    repeat keeps_step; now apply keeps_now. }
  repeat split; apply K; reflexivity.
Qed.

Lemma bind_run {A B} (m : M A) (k : A -> M B) w a w' :
  m w = (Ok a, w') -> bind m k w = k a w'.
Proof. intros E. unfold bind. now rewrite E. Qed.

Lemma merge_step_run {B} (acc rates : dict float) (k : dict float -> M B) w :
  exists w',
    bind (match rates with
          | [] => ret acc
          | _ =>
              w0 <- get_world ;;
              modify (set_successful_sources (successful_sources w0 + 1)) ;;;
              ret (dict_update acc rates)
          end) k w
    = k (dict_update acc rates) w'
    /\ disk w' = disk w /\ faults w' = faults w
    /\ successful_sources w' = successful_sources w + delivered rates
    /\ total_rates w' = total_rates w.
Proof.
  destruct rates as [|kv rates]; eexists; (split; [reflexivity|]); cbn;
    repeat split; lia.
Qed.

Lemma save_current_rates_run cfg pairs stamp w :
  hd NoFault (faults w) = NoFault ->
  exists w',
    save_current_rates cfg [("pairs", PDict pairs); ("last_refresh", stamp)] w
    = (Ok tt, w')
    /\ committed cfg w'
       = (Some (Doc (PDict [("pairs", PDict pairs); ("last_refresh", stamp)])),
          successful_sources w, total_rates w).
Proof.
  intros Hf. unfold save_current_rates, try_except, bind.
  rewrite (atomic_write_ok _ _ _ Hf). eexists. split; [reflexivity|].
  unfold committed. cbn. now rewrite dict_get_set_same.
Qed.

Lemma unpacks_merged (c x : dict float) :
  forallb (fun item => unpacks (fst item)) c = true ->
  forallb (fun item => unpacks (fst item)) x = true ->
  forallb (fun item => unpacks (fst item)) (dict_update (dict_update [] c) x)
  = true.
Proof.
  intros Hc Hx. rewrite forallb_forall in *. intros [k r] Hin. cbn [fst].
  assert (Hk : In k (map fst (dict_update (dict_update [] c) x))).
  { change k with (fst (k, r)). now apply in_map. }
  apply keys_dict_update in Hk as [Hk|Hk].
  - apply keys_dict_update in Hk as [[]|Hk].
    apply in_map_iff in Hk as [[k' r'] [<- Hin']]. apply (Hc _ Hin').
  - apply in_map_iff in Hk as [[k' r'] [<- Hin']]. apply (Hx _ Hin').
Qed.

Lemma merged_rate_dict_update (c x : dict float) k :
  NoDup (map fst c) -> NoDup (map fst x) ->
  dict_get k (dict_update [] (dict_update (dict_update [] c) x))
  = merged_rate c x k.
Proof.
  intros Nc Nx. unfold merged_rate.
  rewrite dict_get_dict_update
    by (apply NoDup_dict_update, NoDup_dict_update; constructor).
  rewrite (dict_get_dict_update k (dict_update [] c) x) by assumption.
  rewrite (dict_get_dict_update k [] c) by assumption. cbn [dict_get].
  destruct (dict_get k x); [reflexivity|]. now destruct (dict_get k c).
Qed.

(** The [try] block of a run that fetches something and whose snapshot
    write goes through. *)
Lemma run_update_try_run env cfg w c x :
  (forall w', fetched (result_of (CoinGecko_fetch_rates env cfg) w') = c) ->
  (forall w', fetched (result_of (ExchangeRate_fetch_rates env cfg) w') = x) ->
  NoDup (map fst c) -> NoDup (map fst x) ->
  forallb (fun item => unpacks (fst item)) c = true ->
  forallb (fun item => unpacks (fst item)) x = true ->
  c <> [] \/ x <> [] ->
  hd NoFault (faults w) = NoFault ->
  String.eqb (RATES_FILE_PATH cfg) (HISTORY_FILE_PATH cfg) = false ->
  exists wf pairs stamp,
    run_update_try env cfg w = (Ok true, wf)
    /\ committed cfg wf
       = (Some (Doc (PDict [("pairs", PDict pairs);
                            ("last_refresh", PStr stamp)])),
          successful_sources w + delivered c + delivered x,
          total_rates w + List.length c + List.length x)
    /\ (forall k, stored_rate pairs k = merged_rate c x k).
Proof.
  intros Hc Hx Nc Nx Uc Ux Hne Hf Hp. unfold run_update_try.
  destruct (fetch_from_coingecko_run env cfg w) as [w1 [E1 [D1 [F1 [S1 T1]]]]].
  rewrite Hc in E1, T1. rewrite (bind_run _ _ _ _ _ E1). cbv beta.
  match goal with
  | |- context [bind ?m ?k w1] =>
      destruct (merge_step_run [] c k w1) as [w2 [E2 [D2 [F2 [S2 T2]]]]];
      replace (bind m k w1) with (k (dict_update [] c) w2)
        by (symmetry; exact E2)
  end.
  cbv beta.
  destruct (fetch_from_exchangerate_run env cfg w2) as [w3 [E3 [D3 [F3 [S3 T3]]]]].
  rewrite Hx in E3, T3. rewrite (bind_run _ _ _ _ _ E3). cbv beta.
  match goal with
  | |- context [bind ?m ?k w3] =>
      destruct (merge_step_run (dict_update [] c) x k w3)
        as [w4 [E4 [D4 [F4 [S4 T4]]]]];
      replace (bind m k w3) with (k (dict_update (dict_update [] c) x) w4)
        by (symmetry; exact E4)
  end.
  cbv beta.
  pose proof (unpacks_merged c x Uc Ux) as Um.
  remember (dict_update (dict_update [] c) x) as merged eqn:Em.
  destruct merged as [|kv rest].
  { symmetry in Em. apply dict_update_nil in Em as [Em ->].
    apply dict_update_nil in Em as [_ ->]. now destruct Hne. }
  cbv iota.
  destruct (prepare_rates_data_run env cfg _ w4 Um) as [pairs [w5 [E5 [R5 _]]]].
  pose proof (keeps_prepare env cfg (kv :: rest) w4) as K5.
  rewrite E5 in K5. cbn [snd] in K5. destruct K5 as [F5 [S5 T5]].
  rewrite (bind_run _ _ _ _ _ E5). cbv beta.
  destruct (save_current_rates_run cfg pairs
              (PStr (isoformat (utcnow env (ticks w4
                 + List.length (kv :: rest))))) w5)
    as [w6 [E6 C6]].
  { congruence. }
  rewrite (bind_run _ _ _ _ _ E6). cbv beta.
  pose proof (save_historical_records_result env cfg (kv :: rest) w6) as R7.
  rewrite Um in R7.
  pose proof (keeps_save_historical_records env cfg (kv :: rest) Hp w6) as K7.
  unfold result_of in R7.
  destruct (_save_historical_records env cfg _ w6) as [r7 w7] eqn:E7.
  cbn [fst snd] in R7, K7. subst r7. rewrite (bind_run _ _ _ _ _ E7).
  exists w7, pairs. eexists. split; [reflexivity|]. split.
  - rewrite K7, C6. repeat f_equal; lia.
  - intros k. rewrite R5, Em. now apply merged_rate_dict_update.
Qed.

(** A run that commits.  Suppose the crypto client delivers [c] and the
    fiat client [x] (the empty mapping standing for a client that
    raises), not both empty, with keys that split in two; the snapshot
    write goes through; and the snapshot and the history are different
    files.  Then [run_update] returns [True], whatever happens to the
    history writes, and the snapshot file is replaced by a document whose
    pairs carry, for every key, the fiat client's rate if it has one and
    the crypto client's otherwise: the source fetched last wins, and
    nothing of the previous snapshot survives. *)
Theorem run_update_commits env cfg w c x :
  (forall w', fetched (result_of (CoinGecko_fetch_rates env cfg) w') = c) ->
  (forall w', fetched (result_of (ExchangeRate_fetch_rates env cfg) w') = x) ->
  NoDup (map fst c) -> NoDup (map fst x) ->
  forallb (fun item => unpacks (fst item)) c = true ->
  forallb (fun item => unpacks (fst item)) x = true ->
  c <> [] \/ x <> [] ->
  hd NoFault (faults w) = NoFault ->
  String.eqb (RATES_FILE_PATH cfg) (HISTORY_FILE_PATH cfg) = false ->
  result_of (run_update env cfg) w = Ok true
  /\ exists pairs stamp,
       snapshot_of cfg (disk (world_after (run_update env cfg) w))
       = PDict [("pairs", PDict pairs); ("last_refresh", PStr stamp)]
       /\ (forall k, stored_rate pairs k = merged_rate c x k).
Proof.
  intros Hc Hx Nc Nx Uc Ux Hne Hf Hp.
  destruct (run_update_try_run env cfg
              (set_total_rates 0 (set_successful_sources 0 w)) c x
              Hc Hx Nc Nx Uc Ux Hne Hf Hp)
    as [wf [pairs [stamp [E [C R]]]]].
  unfold result_of, world_after, run_update, try_except, bind, modify.
  cbn [fst snd]. rewrite E. cbn [fst snd]. split; [reflexivity|].
  exists pairs, stamp. split; [|exact R].
  unfold committed in C. injection C as C _ _.
  unfold snapshot_of. now rewrite C.
Qed.

Lemma run_update_commits_witness :
  result_of (run_update env_offline config) world_2_4 = Ok true
  /\ exists pairs stamp,
       snapshot_of config (disk (world_after (run_update env_offline config) world_2_4))
       = PDict [("pairs", PDict pairs); ("last_refresh", PStr stamp)]
       /\ (forall k, stored_rate pairs k
                     = merged_rate []
                         [("EUR_USD", 0.93%float); ("GBP_USD", 0.79%float);
                          ("RUB_USD", 0.011%float)] k).
Proof.
  apply (run_update_commits env_offline config world_2_4 []
           [("EUR_USD", 0.93%float); ("GBP_USD", 0.79%float);
            ("RUB_USD", 0.011%float)]).
  - intros w'. reflexivity.
  - intros w'. reflexivity.
  - constructor.
  - repeat constructor; cbn; intuition discriminate.
  - reflexivity.
  - reflexivity.
  - right. discriminate.
  - reflexivity.
  - reflexivity.
Defined.

Lemma keeps_counter_commit_stage (f : world -> nat) env cfg merged :
  (forall e w, f (log_event e w) = f w) ->
  (forall n w, f (set_ticks n w) = f w) ->
  (forall n w, f (set_stray_tmp n w) = f w) ->
  (forall l w, f (set_faults l w) = f w) ->
  (forall d w, f (set_disk d w) = f w) ->
  keeps f (match merged with
           | [] => ret false
           | _ =>
               rates_data <- _prepare_rates_data env cfg merged ;;
               save_current_rates cfg rates_data ;;;
               _save_historical_records env cfg merged ;;;
               ret true
           end).
Proof.
  intros Hl Ht Hs Hf Hd.
  assert (Ka : forall path data, keeps f (_atomic_write path data)).
  { intros path data. unfold _atomic_write.
    apply keeps_bind; [apply keeps_get_world|]. intros w0.
    apply keeps_bind; [apply keeps_modify; intros w; apply Hf|]. intros _.
    apply keeps_bind; [apply keeps_modify; intros w; apply Hl|]. intros _.
    destruct (hd NoFault (faults w0)).
    - apply keeps_bind; [|intros _]; apply keeps_modify; intros w;
        [apply Hl|apply Hd].
    - apply keeps_raise.
    - apply keeps_bind; [apply keeps_modify; intros w; apply Hs|].
      intros _. apply keeps_raise.
    - apply keeps_bind; [apply keeps_modify; intros w; apply Hl|]. intros _.
      apply keeps_bind; [apply keeps_modify; intros w; apply Hl|]. intros _.
      apply keeps_raise. }
  unfold _prepare_rates_data, save_current_rates, _save_historical_records,
    create_historical_record, save_historical_record, _load_history.
  repeat keeps_step;
    first [ apply Ka
          | now apply keeps_now
          | now apply keeps_path_exists
          | now apply keeps_open_json_load ].
Qed.

(** The counters of a run.  Whether the run ends in [True] or [False],
    [run_update] leaves in [successful_sources] the number of clients
    that delivered a non-empty mapping, and in [total_rates] the sum of
    the sizes of what the two clients delivered: the counters start from
    zero at every run, and a key delivered by both clients is counted
    twice. *)
Theorem run_update_counters env cfg w c x :
  (forall w', fetched (result_of (CoinGecko_fetch_rates env cfg) w') = c) ->
  (forall w', fetched (result_of (ExchangeRate_fetch_rates env cfg) w') = x) ->
  successful_sources (world_after (run_update env cfg) w)
  = delivered c + delivered x
  /\ total_rates (world_after (run_update env cfg) w)
     = List.length c + List.length x.
Proof.
  intros Hc Hx.
  assert (G : forall f : world -> nat,
             (forall e w, f (log_event e w) = f w) ->
             (forall n w, f (set_ticks n w) = f w) ->
             (forall n w, f (set_stray_tmp n w) = f w) ->
             (forall l w, f (set_faults l w) = f w) ->
             (forall d w, f (set_disk d w) = f w) ->
             forall w0, exists w4,
               f (snd (run_update_try env cfg w0)) = f w4
               /\ successful_sources w4
                  = successful_sources w0 + delivered c + delivered x
               /\ total_rates w4 = total_rates w0 + List.length c + List.length x).
  { intros f Hl Ht Hs Hf Hd w0. unfold run_update_try.
    destruct (fetch_from_coingecko_run env cfg w0) as [w1 [E1 [D1 [F1 [S1 T1]]]]].
    rewrite Hc in E1, T1. rewrite (bind_run _ _ _ _ _ E1). cbv beta.
    match goal with
    | |- context [bind ?m ?k w1] =>
        destruct (merge_step_run [] c k w1) as [w2 [E2 [D2 [F2 [S2 T2]]]]];
        replace (bind m k w1) with (k (dict_update [] c) w2)
          by (symmetry; exact E2)
    end.
    cbv beta.
    destruct (fetch_from_exchangerate_run env cfg w2) as [w3 [E3 [D3 [F3 [S3 T3]]]]].
    rewrite Hx in E3, T3. rewrite (bind_run _ _ _ _ _ E3). cbv beta.
    match goal with
    | |- context [bind ?m ?k w3] =>
        destruct (merge_step_run (dict_update [] c) x k w3)
          as [w4 [E4 [D4 [F4 [S4 T4]]]]];
        replace (bind m k w3) with (k (dict_update (dict_update [] c) x) w4)
          by (symmetry; exact E4)
    end.
    cbv beta. exists w4. split; [|split; lia].
    apply (keeps_counter_commit_stage f env cfg); assumption. }
  unfold world_after, run_update, try_except, bind, modify, ret. cbn [fst snd].
  destruct (G successful_sources (fun _ _ => eq_refl) (fun _ _ => eq_refl)
              (fun _ _ => eq_refl) (fun _ _ => eq_refl) (fun _ _ => eq_refl)
              (set_total_rates 0 (set_successful_sources 0 w)))
    as [wa [Ea [Sa _]]].
  destruct (G total_rates (fun _ _ => eq_refl) (fun _ _ => eq_refl)
              (fun _ _ => eq_refl) (fun _ _ => eq_refl) (fun _ _ => eq_refl)
              (set_total_rates 0 (set_successful_sources 0 w)))
    as [wb [Eb [_ Tb]]].
  destruct (run_update_try env cfg _) as [[b|e] w1]; cbn [fst snd] in *;
    rewrite Ea, Eb, Sa, Tb; cbn; split; reflexivity.
Qed.

Lemma run_update_counters_witness :
  successful_sources (world_after (run_update env_offline config) world_failing_rename)
  = delivered [] + delivered [("EUR_USD", 0.93%float); ("GBP_USD", 0.79%float);
                              ("RUB_USD", 0.011%float)]
  /\ total_rates (world_after (run_update env_offline config) world_failing_rename)
     = List.length (@nil (string * float))
       + List.length [("EUR_USD", 0.93%float); ("GBP_USD", 0.79%float);
                      ("RUB_USD", 0.011%float)].
Proof.
  apply (run_update_counters env_offline config world_failing_rename []
           [("EUR_USD", 0.93%float); ("GBP_USD", 0.79%float);
            ("RUB_USD", 0.011%float)]); intros w'; reflexivity.
Defined.

(** ** The scheduler *)

Lemma run_update_returns env cfg w :
  exists ok w', run_update env cfg w = (Ok ok, w').
Proof.
  unfold run_update, try_except, bind, modify, ret. cbn [fst snd].
  destruct (run_update_try env cfg _) as [[b|e] w1]; eauto.
Qed.

(** [run_once] is [run_update]: it returns the same boolean and leaves
    the same world, and its own handler is never taken, since
    [run_update] does not raise. *)
Theorem run_once_is_run_update env cfg w :
  run_once env cfg w = run_update env cfg w.
Proof.
  destruct (run_update_returns env cfg w) as [ok [w' E]].
  unfold run_once, try_except. now rewrite E.
Qed.

(** ** The source clients: what they emit *)

Lemma res_for_invariant {A B} (P : B -> Prop) (l : list A) (body : B -> A -> res B) :
  (forall acc x acc', In x l -> P acc -> body acc x = Ok acc' -> P acc') ->
  forall acc r, P acc -> res_for l acc body = Ok r -> P r.
Proof.
  induction l as [|x l IH]; intros Hb acc r Ha E; cbn in E.
  - now injection E as <-.
  - destruct (body acc x) as [acc'|e] eqn:Eb; cbn in E; [|discriminate].
    apply (IH (fun a y a' Hy => Hb a y a' (or_intror Hy)) acc' r); [|exact E].
    apply (Hb acc x acc'); auto. now left.
Qed.

Lemma fallback_rates_keys cfg k :
  In k (map fst (_get_fallback_rates cfg)) ->
  exists cur, In cur (FIAT_CURRENCIES cfg) /\ k = pair_key cur (BASE_CURRENCY cfg).
Proof.
  unfold _get_fallback_rates.
  assert (G : forall l acc,
             (forall k, In k (map fst acc) ->
                exists cur, In cur (FIAT_CURRENCIES cfg)
                            /\ k = pair_key cur (BASE_CURRENCY cfg)) ->
             (forall cur, In cur l -> In cur (FIAT_CURRENCIES cfg)) ->
             forall k,
               In k (map fst
                  (fold_left
                     (fun rates currency =>
                        let key := pair_key currency (BASE_CURRENCY cfg) in
                        match dict_get key fallback_rates with
                        | Some x => dict_set key x rates
                        | None => rates
                        end) l acc)) ->
               exists cur, In cur (FIAT_CURRENCIES cfg)
                           /\ k = pair_key cur (BASE_CURRENCY cfg)).
  { induction l as [|c l IH]; intros acc Hacc Hl k0; cbn [fold_left];
      [apply Hacc|].
    apply IH; [|intros cur Hc; apply Hl; now right].
    intros k1.
    destruct (dict_get (pair_key c (BASE_CURRENCY cfg)) fallback_rates);
      [|apply Hacc].
    rewrite keys_dict_set. intros [->|Hin]; [|now apply Hacc].
    exists c. split; [apply Hl; now left|reflexivity]. }
  apply G; [intros k0 []|auto].
Qed.

Lemma ExchangeRate_parse_response_keys env cfg data rates k :
  ExchangeRate_parse_response env cfg data = Ok rates ->
  In k (map fst rates) ->
  exists cur, In cur (FIAT_CURRENCIES cfg) /\ k = pair_key cur (BASE_CURRENCY cfg).
Proof.
  unfold ExchangeRate_parse_response. intros E.
  destruct (py_get data "result" PNone) as [result|]; cbn [res_bind] in E;
    [|discriminate].
  destruct (negb (is_str "success" result)).
  { injection E as <-. apply fallback_rates_keys. }
  destruct (py_get data "conversion_rates" (PDict [])) as [base_rates|];
    cbn [res_bind] in E; [|discriminate].
  destruct (py_len base_rates); cbn [res_bind] in E; [|discriminate].
  revert k.
  refine (res_for_invariant
            (fun rates0 => forall k, In k (map fst rates0) ->
               exists cur, In cur (FIAT_CURRENCIES cfg)
                           /\ k = pair_key cur (BASE_CURRENCY cfg))
            _ _ _ [] rates _ E); [|intros k []].
  intros acc cur acc' Hcur Hacc Hb k.
  destruct (py_in cur base_rates) as [[|]|]; cbn [res_bind] in Hb;
    try discriminate.
  - destruct (py_getitem base_rates cur) as [r|]; cbn [res_bind] in Hb;
      [|discriminate].
    destruct (py_float (float_of_str env) r); cbn [res_bind] in Hb;
      [|discriminate].
    injection Hb as <-. rewrite keys_dict_set. intros [->|Hin]; [|now apply Hacc].
    now exists cur.
  - injection Hb as <-. apply Hacc.
Qed.

(** The fiat client emits only configured pairs.  Whatever the service
    replies, and on the fallback path too, every key of the mapping
    [fetch_rates] returns is [{currency}_{BASE}] for one of the
    configured fiat currencies. *)
Theorem ExchangeRate_fetch_rates_keys env cfg w rates k :
  result_of (ExchangeRate_fetch_rates env cfg) w = Ok rates ->
  In k (map fst rates) ->
  exists cur, In cur (FIAT_CURRENCIES cfg) /\ k = pair_key cur (BASE_CURRENCY cfg).
Proof.
  unfold result_of, ExchangeRate_fetch_rates, try_except2, _make_request, bind,
    modify, lift, ret, raise.
  destruct (negb (truthy (PStr (EXCHANGERATE_API_KEY cfg)))).
  { cbn. intros [= <-]. apply fallback_rates_keys. }
  cbn. destruct (http_get env (ExchangeRate_url cfg) []) as [reason|e|body]; cbn.
  - intros [= <-]. apply fallback_rates_keys.
  - destruct (is_FetchError e); cbn; intros [= <-]; apply fallback_rates_keys.
  - destruct (py_get body "conversion_rates" (PDict [])) as [cr|e]; cbn.
    2:{ destruct (is_FetchError e); cbn; intros [= <-]; apply fallback_rates_keys. }
    destruct (negb (truthy cr)); cbn.
    { intros [= <-]. apply fallback_rates_keys. }
    destruct (ExchangeRate_parse_response env cfg body) as [r|e] eqn:Ep; cbn.
    + intros [= <-]. now apply (ExchangeRate_parse_response_keys env cfg body).
    + destruct (is_FetchError e); cbn; intros [= <-]; apply fallback_rates_keys.
Qed.

Lemma ExchangeRate_fetch_rates_keys_witness :
  exists cur, In cur (FIAT_CURRENCIES config)
              /\ "GBP_USD" = pair_key cur (BASE_CURRENCY config).
Proof.
  apply (ExchangeRate_fetch_rates_keys env_offline config (world_with [])
           [("EUR_USD", 0.93%float); ("GBP_USD", 0.79%float);
            ("RUB_USD", 0.011%float)] "GBP_USD").
  - reflexivity.
  - cbn. auto.
Defined.

Lemma string_length_append (a t : string) :
  String.length (a ++ t) = String.length a + String.length t.
Proof. induction a as [|c a IH]; cbn; [reflexivity|now rewrite IH]. Qed.

Lemma append_cancel_r (a b t : string) : (a ++ t = b ++ t)%string -> a = b.
Proof.
  revert b. induction a as [|c a IH]; intros [|d b] H; cbn in H.
  - reflexivity.
  - apply (f_equal String.length) in H. cbn in H.
    rewrite string_length_append in H. lia.
  - apply (f_equal String.length) in H. cbn in H.
    rewrite string_length_append in H. lia.
  - injection H as -> H. f_equal. now apply IH.
Qed.

Lemma pair_key_inj a b s : pair_key a s = pair_key b s -> a = b.
Proof. unfold pair_key. apply append_cancel_r. Qed.

Lemma CoinGecko_parse_response_keys env cfg data rates k :
  CoinGecko_parse_response env cfg data = Ok rates ->
  In k (map fst rates) ->
  exists code, In code (map fst (CRYPTO_ID_MAP cfg))
               /\ k = pair_key code (BASE_CURRENCY cfg).
Proof.
  unfold CoinGecko_parse_response. intros E. revert k.
  refine (res_for_invariant
            (fun rates0 => forall k, In k (map fst rates0) ->
               exists code, In code (map fst (CRYPTO_ID_MAP cfg))
                            /\ k = pair_key code (BASE_CURRENCY cfg))
            _ _ _ [] rates _ E); [|intros k []].
  intros acc [code id] acc' Hin Hacc Hb k. cbn [fst snd] in Hb.
  destruct (py_in id data) as [listed|]; cbn [res_bind] in Hb; [|discriminate].
  destruct (if listed then res_bind (py_getitem data id) (py_in "usd")
            else Ok false) as [[|]|]; cbn [res_bind] in Hb; try discriminate.
  - destruct (py_getitem data id) as [prices|]; cbn [res_bind] in Hb;
      [|discriminate].
    destruct (py_getitem prices "usd") as [r|]; cbn [res_bind] in Hb;
      [|discriminate].
    destruct (py_float (float_of_str env) r); cbn [res_bind] in Hb;
      [|discriminate].
    injection Hb as <-. rewrite keys_dict_set. intros [->|Hk]; [|now apply Hacc].
    exists code. split; [|reflexivity].
    change code with (fst (code, id)). now apply in_map.
  - injection Hb as <-. apply Hacc.
Qed.

(** The crypto client emits only mapped assets.  Every key of a mapping
    that [fetch_rates] returns is [{code}_{BASE}] for a code of the id
    map; the codes come from the whole id map, not from the list of
    configured crypto currencies. *)
Theorem CoinGecko_fetch_rates_keys env cfg w rates k :
  result_of (CoinGecko_fetch_rates env cfg) w = Ok rates ->
  In k (map fst rates) ->
  exists code, In code (map fst (CRYPTO_ID_MAP cfg))
               /\ k = pair_key code (BASE_CURRENCY cfg).
Proof.
  unfold result_of, CoinGecko_fetch_rates, try_except2, _make_request, bind,
    modify, lift, ret, raise.
  destruct (crypto_ids cfg) as [|i ids]; [cbn; now intros [= <-] []|].
  cbn.
  destruct (http_get env (COINGECKO_URL cfg) _) as [reason|e|body]; cbn.
  - discriminate.
  - destruct (is_FetchError e); discriminate.
  - destruct (CoinGecko_parse_response env cfg body) as [r|e] eqn:Ep; cbn.
    + intros [= <-]. now apply (CoinGecko_parse_response_keys env cfg body).
    + destruct (is_FetchError e); discriminate.
Qed.

Lemma CoinGecko_fetch_rates_keys_witness :
  exists code, In code (map fst (CRYPTO_ID_MAP config))
               /\ "SOL_USD" = pair_key code (BASE_CURRENCY config).
Proof.
  apply (CoinGecko_fetch_rates_keys
           (mkEnv (fun _ _ => Replies (PDict [("solana", PDict [("usd", PFloat 150%float)])]))
                  (fun _ => mkDatetime "" "") (fun _ => None))
           config (world_with []) [("SOL_USD", 150%float)] "SOL_USD").
  - reflexivity.
  - cbn. auto.
Defined.

Lemma collect_get {A} (key : A -> string) (value : A -> option float) k vk :
  forall l acc,
    (forall y, In y l -> key y = k -> value y = vk) ->
    dict_get k (collect key value l acc)
    = if existsb (fun y => String.eqb (key y) k) l
      then match vk with Some v => Some v | None => dict_get k acc end
      else dict_get k acc.
Proof.
  unfold collect.
  induction l as [|y l IH]; intros acc H; cbn [fold_left existsb];
    [reflexivity|].
  rewrite IH by (intros z Hz; apply H; now right).
  assert (E : dict_get k (match value y with
                          | Some v => dict_set (key y) v acc
                          | None => acc
                          end)
              = if String.eqb (key y) k
                then match vk with Some v => Some v | None => dict_get k acc end
                else dict_get k acc).
  { destruct (String.eqb (key y) k) eqn:Ek.
    - apply String.eqb_eq in Ek. rewrite (H y (or_introl eq_refl) Ek).
      destruct vk; [|reflexivity]. subst k. apply dict_get_set_same.
    - destruct (value y); [|reflexivity].
      apply dict_get_set_other. now rewrite String.eqb_sym. }
  rewrite E.
  destruct (String.eqb (key y) k), (existsb _ l), vk; reflexivity.
Qed.

Lemma collect_get_in {A} (key : A -> string) (value : A -> option float) l x :
  In x l ->
  (forall y, In y l -> key y = key x -> value y = value x) ->
  dict_get (key x) (collect key value l []) = value x.
Proof.
  intros Hin H. rewrite (collect_get key value (key x) (value x)) by exact H.
  assert (E : existsb (fun y => String.eqb (key y) (key x)) l = true).
  { apply existsb_exists. exists x. split; [exact Hin|apply String.eqb_refl]. }
  rewrite E. now destruct (value x).
Qed.

Lemma res_for_collect {A} (key : A -> string) (value : A -> option float)
    (body : dict float -> A -> res (dict float)) :
  forall l acc,
    (forall acc x, In x l ->
       body acc x = Ok (match value x with
                        | Some v => dict_set (key x) v acc
                        | None => acc
                        end)) ->
    res_for l acc body = Ok (collect key value l acc).
Proof.
  unfold collect. induction l as [|x l IH]; intros acc H; cbn; [reflexivity|].
  rewrite (H acc x (or_introl eq_refl)). cbn [res_bind].
  apply IH. intros acc' y Hy. apply H. now right.
Qed.

(** A usable reply, taken as it is.  With an API key, a reply whose
    ['result'] is ['success'] and whose non-empty ['conversion_rates']
    holds a float for each configured currency it lists, [fetch_rates]
    returns a mapping in which [{currency}_{BASE}] is the number the
    reply gives for [currency], unchanged, for every configured
    currency; a currency the reply does not list has no pair. *)
Theorem ExchangeRate_fetch_rates_reply env cfg w body cr :
  String.eqb (EXCHANGERATE_API_KEY cfg) "" = false ->
  http_get env (ExchangeRate_url cfg) [] = Replies (PDict body) ->
  dict_get "result" body = Some (PStr "success") ->
  dict_get "conversion_rates" body = Some (PDict cr) ->
  cr <> [] ->
  forallb (float_or_absent cr) (FIAT_CURRENCIES cfg) = true ->
  exists rates,
    result_of (ExchangeRate_fetch_rates env cfg) w = Ok rates
    /\ forall cur, In cur (FIAT_CURRENCIES cfg) ->
         dict_get (pair_key cur (BASE_CURRENCY cfg)) rates = float_at cr cur.
Proof.
  intros Hkey Hb Hres Hcr Hne Hok.
  exists (collect (fun cur => pair_key cur (BASE_CURRENCY cfg)) (float_at cr)
            (FIAT_CURRENCIES cfg) []).
  split.
  - unfold result_of, ExchangeRate_fetch_rates, try_except2, _make_request,
      bind, modify, lift, ret, raise.
    cbn [truthy]. rewrite Hkey. cbn. rewrite Hb. cbn. rewrite Hcr. cbn.
    destruct cr as [|kv cr']; [congruence|]. cbn [negb].
    unfold ExchangeRate_parse_response. cbn [py_get]. rewrite Hres, Hcr.
    cbn [res_bind is_str]. rewrite String.eqb_refl. cbn [negb py_len res_bind].
    rewrite (res_for_collect (fun cur => pair_key cur (BASE_CURRENCY cfg))
               (float_at (kv :: cr'))); [reflexivity|].
    intros acc cur Hin. rewrite forallb_forall in Hok. specialize (Hok cur Hin).
    unfold float_or_absent, float_at in *. cbn [py_in py_getitem]. unfold dict_mem.
    destruct (dict_get cur (kv :: cr')) as [[| |x| | |]|]; try discriminate;
      reflexivity.
  - intros cur Hin.
    apply (collect_get_in (fun c => pair_key c (BASE_CURRENCY cfg)) (float_at cr)
             (FIAT_CURRENCIES cfg) cur Hin).
    intros y _ Hy. now rewrite (pair_key_inj _ _ _ Hy).
Qed.

Lemma ExchangeRate_fetch_rates_reply_witness :
  exists rates,
    result_of (ExchangeRate_fetch_rates
                 (mkEnv (fun _ _ => Replies (PDict
                           [("result", PStr "success");
                            ("conversion_rates",
                             PDict [("USD", PFloat 1%float);
                                    ("EUR", PFloat 0.5%float)])]))
                        (fun _ => mkDatetime "" "") (fun _ => None))
                 config) (world_with [])
    = Ok rates
    /\ forall cur, In cur (FIAT_CURRENCIES config) ->
         dict_get (pair_key cur (BASE_CURRENCY config)) rates
         = float_at [("USD", PFloat 1%float); ("EUR", PFloat 0.5%float)] cur.
Proof.
  apply (ExchangeRate_fetch_rates_reply _ config (world_with [])
           [("result", PStr "success");
            ("conversion_rates",
             PDict [("USD", PFloat 1%float); ("EUR", PFloat 0.5%float)])]
           [("USD", PFloat 1%float); ("EUR", PFloat 0.5%float)]);
    try reflexivity.
  discriminate.
Defined.

Lemma NoDup_keys_functional {V} (l : dict V) k a b :
  NoDup (map fst l) -> In (k, a) l -> In (k, b) l -> a = b.
Proof.
  induction l as [|[k1 v1] l IH]; cbn; intros Hn Ha Hb; [contradiction|].
  inversion Hn as [|? ? Hnot Hn']; subst.
  destruct Ha as [Ha|Ha], Hb as [Hb|Hb].
  - congruence.
  - injection Ha as -> ->. exfalso. apply Hnot.
    change k with (fst (k, b)). now apply in_map.
  - injection Hb as -> ->. exfalso. apply Hnot.
    change k with (fst (k, a)). now apply in_map.
  - now apply IH.
Qed.

(** A price reply, taken as it is.  With at least one asset id
    configured and a reply that is an object in which every mapped id is
    absent or holds an object whose ['usd'] is absent or a float,
    [fetch_rates] returns a mapping in which [{code}_{BASE}] is the USD
    price the reply quotes for the id of [code], for every code of the id
    map; a code whose id is not quoted has no pair. *)
Theorem CoinGecko_fetch_rates_reply env cfg w data :
  crypto_ids cfg <> [] ->
  NoDup (map fst (CRYPTO_ID_MAP cfg)) ->
  http_get env (COINGECKO_URL cfg) (CoinGecko_params cfg) = Replies (PDict data) ->
  forallb (fun item => quoted_or_absent data (snd item)) (CRYPTO_ID_MAP cfg)
  = true ->
  exists rates,
    result_of (CoinGecko_fetch_rates env cfg) w = Ok rates
    /\ forall code id, In (code, id) (CRYPTO_ID_MAP cfg) ->
         dict_get (pair_key code (BASE_CURRENCY cfg)) rates = usd_price data id.
Proof.
  intros Hids Hn Hb Hok.
  exists (collect (fun item => pair_key (fst item) (BASE_CURRENCY cfg))
            (fun item => usd_price data (snd item)) (CRYPTO_ID_MAP cfg) []).
  split.
  - unfold result_of, CoinGecko_fetch_rates, try_except2, _make_request,
      bind, modify, lift, ret, raise.
    destruct (crypto_ids cfg) as [|i ids]; [congruence|].
    rewrite Hb. cbn [fst snd].
    unfold CoinGecko_parse_response.
    rewrite (res_for_collect
               (fun item => pair_key (fst item) (BASE_CURRENCY cfg))
               (fun item => usd_price data (snd item))); [reflexivity|].
    intros acc [code id] Hin. rewrite forallb_forall in Hok.
    specialize (Hok _ Hin). cbn [fst snd] in *.
    unfold quoted_or_absent, usd_price, float_or_absent, float_at in *.
    cbn [py_in py_getitem]. unfold dict_mem.
    destruct (dict_get id data) as [[| | | | |prices]|]; try discriminate;
      [|reflexivity].
    cbn [res_bind py_in py_getitem]. unfold dict_mem.
    destruct (dict_get "usd" prices) as [[| |x| | |]|]; try discriminate;
      reflexivity.
  - intros code id Hin.
    apply (collect_get_in
             (fun item => pair_key (fst item) (BASE_CURRENCY cfg))
             (fun item => usd_price data (snd item))
             (CRYPTO_ID_MAP cfg) (code, id) Hin).
    intros [code' id'] Hin' Hy. cbn [fst snd] in *.
    apply pair_key_inj in Hy. subst code'.
    now rewrite (NoDup_keys_functional _ _ _ _ Hn Hin' Hin).
Qed.

Lemma CoinGecko_fetch_rates_reply_witness :
  exists rates,
    result_of (CoinGecko_fetch_rates
                 (mkEnv (fun _ _ => Replies (PDict
                           [("bitcoin", PDict [("usd", PFloat 4%float)])]))
                        (fun _ => mkDatetime "" "") (fun _ => None))
                 config) (world_with [])
    = Ok rates
    /\ forall code id, In (code, id) (CRYPTO_ID_MAP config) ->
         dict_get (pair_key code (BASE_CURRENCY config)) rates
         = usd_price [("bitcoin", PDict [("usd", PFloat 4%float)])] id.
Proof.
  apply (CoinGecko_fetch_rates_reply _ config (world_with [])
           [("bitcoin", PDict [("usd", PFloat 4%float)])]);
    try reflexivity.
  - discriminate.
  - repeat constructor; cbn; intuition discriminate.
Defined.

(** ** The currency registry *)

Lemma upper_ascii_idempotent c : upper_ascii (upper_ascii c) = upper_ascii c.
Proof. destruct c as [[] [] [] [] [] [] [] []]; reflexivity. Qed.

Lemma upper_idempotent s : upper (upper s) = upper s.
Proof.
  induction s as [|c s IH]; cbn; [reflexivity|].
  now rewrite upper_ascii_idempotent, IH.
Qed.

(** Lookups ignore case: [get_currency] answers for a code what it
    answers for the upper-cased code, the found key or the error alike. *)
Theorem get_currency_ignores_case registry code :
  get_currency registry code = get_currency registry (upper code).
Proof.
  unfold get_currency, is_registered. now rewrite upper_idempotent.
Qed.

Lemma existsb_eqb_In (k : string) (l : list string) :
  existsb (String.eqb k) l = true <-> In k l.
Proof.
  rewrite existsb_exists. split.
  - intros [x [Hx E]]. apply String.eqb_eq in E. now subst.
  - intros H. exists k. split; [exact H|apply String.eqb_refl].
Qed.

Lemma register_currency_keys registry code k :
  In k (register_currency registry code) <-> k = code \/ In k registry.
Proof.
  unfold register_currency.
  destruct (existsb (String.eqb code) registry) eqn:E.
  - apply existsb_eqb_In in E. intuition (subst; auto).
  - rewrite in_app_iff. cbn. intuition.
Qed.

Lemma register_currency_not_empty registry code :
  registry_keys (register_currency registry code)
  = register_currency registry code.
Proof.
  unfold register_currency.
  destruct (existsb (String.eqb code) registry) eqn:E.
  - destruct registry; [discriminate|reflexivity].
  - destruct registry; reflexivity.
Qed.

(** Registering then looking up.  After [register_currency] of a currency
    whose code is [upper raw], [get_currency] finds it under any spelling
    of [raw] that differs only in case; and a code that was found in a
    registry that already held something is still found. *)
Theorem register_then_get registry raw :
  (forall q, upper q = upper raw ->
     get_currency (register_currency registry (upper raw)) q = Ok (upper raw))
  /\ (forall q, registry <> [] ->
        is_registered registry q = true ->
        is_registered (register_currency registry (upper raw)) q = true).
Proof.
  split.
  - intros q Hq. unfold get_currency, is_registered.
    rewrite register_currency_not_empty, Hq.
    assert (E : existsb (String.eqb (upper raw))
                  (register_currency registry (upper raw)) = true).
    { apply existsb_eqb_In, register_currency_keys. now left. }
    now rewrite E.
  - intros q Hne Hq. unfold is_registered in *.
    rewrite register_currency_not_empty.
    apply existsb_eqb_In, register_currency_keys. right.
    apply existsb_eqb_In in Hq. now destruct registry.
Qed.

Lemma register_then_get_witness :
  get_currency (register_currency ["USD"] (upper "gbp")) "Gbp" = Ok (upper "gbp")
  /\ is_registered (register_currency ["USD"] (upper "gbp")) "usd" = true.
Proof.
  pose proof (register_then_get ["USD"] "gbp") as [H1 H2].
  split.
  - apply (H1 "Gbp"). reflexivity.
  - apply (H2 "usd"); [discriminate|reflexivity].
Defined.

(** Registering into a registry that was never used.  The initial
    currencies are loaded only while the registry is empty, so after a
    first [register_currency] into the empty registry the registered
    code is the only one [get_currency] finds: every other code, USD
    included, raises [CurrencyNotFoundError]. *)
Theorem register_before_first_use raw q :
  upper q <> upper raw ->
  get_currency (register_currency [] (upper raw)) q
  = Raise (CurrencyNotFoundError (upper q))
  /\ get_currency [] q
     = if existsb (String.eqb (upper q)) initial_registry
       then Ok (upper q) else Raise (CurrencyNotFoundError (upper q)).
Proof.
  intros Hne. split; [|reflexivity].
  unfold get_currency, is_registered, register_currency. cbn.
  destruct (String.eqb (upper q) (upper raw)) eqn:E; [|reflexivity].
  apply String.eqb_eq in E. contradiction.
Qed.

Lemma register_before_first_use_witness :
  get_currency (register_currency [] (upper "gbp")) "USD"
  = Raise (CurrencyNotFoundError (upper "USD"))
  /\ get_currency [] "USD"
     = if existsb (String.eqb (upper "USD")) initial_registry
       then Ok (upper "USD") else Raise (CurrencyNotFoundError (upper "USD")).
Proof.
  apply (register_before_first_use "gbp" "USD"). discriminate.
Defined.

(** ** Wallets and portfolios *)

(** A purchase that goes through.  For a currency other than USD whose
    wallet exists, with positive amount and price, a cost that is
    positive and not above the USD balance, and new balances that do not
    compare below zero, [buy_currency] returns normally; the USD wallet
    then holds its balance less [amount * price], the bought currency's
    wallet its balance plus [amount], and no other wallet is touched. *)
Theorem Portfolio_buy_currency_ok registry code amount price wallets usd target :
  PrimFloat.leb amount 0%float = false ->
  PrimFloat.leb price 0%float = false ->
  String.eqb code "USD" = false ->
  dict_get "USD" wallets = Some usd ->
  dict_get code wallets = Some target ->
  PrimFloat.ltb (wallet_balance usd) (amount * price)%float = false ->
  PrimFloat.leb (amount * price)%float 0%float = false ->
  PrimFloat.ltb (wallet_balance usd - amount * price)%float 0%float = false ->
  PrimFloat.ltb (wallet_balance target + amount)%float 0%float = false ->
  Portfolio_buy_currency registry code amount price wallets
  = (TOk tt,
     dict_set code
       (mkWallet (wallet_currency target) (wallet_balance target + amount)%float)
       (dict_set "USD"
          (mkWallet (wallet_currency usd)
             (wallet_balance usd - amount * price)%float)
          wallets)).
Proof.
  intros Ha Hp Hne Hu Ht Hc Hc0 Hu' Ht'.
  unfold Portfolio_buy_currency, Portfolio_get_wallet, Wallet_withdraw,
    Wallet_deposit, Wallet_set_balance, dict_mem.
  rewrite Ha, Hp, Ht, Hu, Hc, Hc0, Hu'.
  rewrite dict_get_set_other by exact Hne.
  rewrite Ht. cbn [wallet_balance wallet_currency]. now rewrite ?Ha, ?Ht'.
Qed.

Lemma Portfolio_buy_currency_ok_witness :
  Portfolio_buy_currency [] "BTC" 2%float 10%float
    [("USD", mkWallet "USD" 100%float); ("BTC", mkWallet "BTC" 1%float)]
  = (TOk tt,
     dict_set "BTC" (mkWallet "BTC" (1 + 2)%float)
       (dict_set "USD" (mkWallet "USD" (100 - 2 * 10)%float)
          [("USD", mkWallet "USD" 100%float); ("BTC", mkWallet "BTC" 1%float)])).
Proof.
  apply (Portfolio_buy_currency_ok [] "BTC" 2%float 10%float
           [("USD", mkWallet "USD" 100%float); ("BTC", mkWallet "BTC" 1%float)]
           (mkWallet "USD" 100%float) (mkWallet "BTC" 1%float)); reflexivity.
Defined.

(** A purchase the USD balance does not cover.  [buy_currency] raises
    [ValueError] (not [InsufficientFundsError]) and changes no balance;
    but the wallet of a registered currency that the portfolio did not
    hold has been created by then, empty, and stays. *)
Theorem Portfolio_buy_currency_short registry code amount price wallets usd :
  PrimFloat.leb amount 0%float = false ->
  PrimFloat.leb price 0%float = false ->
  is_registered registry code = true ->
  dict_get "USD" wallets = Some usd ->
  PrimFloat.ltb (wallet_balance usd) (amount * price)%float = true ->
  Portfolio_buy_currency registry code amount price wallets
  = (TRaise (Builtin ValueError),
     if dict_mem code wallets then wallets
     else dict_set code (mkWallet (upper code) 0%float) wallets).
Proof.
  intros Ha Hp Hr Hu Hc.
  unfold Portfolio_buy_currency, Portfolio_add_currency, Portfolio_get_wallet,
    Wallet_init, get_currency.
  rewrite Ha, Hp, Hr.
  destruct (dict_mem code wallets) eqn:Hm.
  - now rewrite Hu, Hc.
  - assert (Hne : String.eqb "USD" code = false).
    { destruct (String.eqb "USD" code) eqn:E; [|reflexivity].
      apply String.eqb_eq in E. subst code. unfold dict_mem in Hm.
      now rewrite Hu in Hm. }
    rewrite dict_get_set_other by exact Hne. now rewrite Hu, Hc.
Qed.

Lemma Portfolio_buy_currency_short_witness :
  Portfolio_buy_currency [] "BTC" 2%float 100%float
    [("USD", mkWallet "USD" 100%float)]
  = (TRaise (Builtin ValueError),
     if dict_mem "BTC" [("USD", mkWallet "USD" 100%float)]
     then [("USD", mkWallet "USD" 100%float)]
     else dict_set "BTC" (mkWallet (upper "BTC") 0%float)
            [("USD", mkWallet "USD" 100%float)]).
Proof.
  apply (Portfolio_buy_currency_short [] "BTC" 2%float 100%float
           [("USD", mkWallet "USD" 100%float)] (mkWallet "USD" 100%float));
    reflexivity.
Defined.

(** A sale of more than the wallet holds.  [sell_currency] raises
    [InsufficientFundsError] naming the code as it was passed, the
    balance and the amount, and leaves the portfolio as it was. *)
Theorem Portfolio_sell_currency_short code amount price wallets source :
  PrimFloat.leb amount 0%float = false ->
  PrimFloat.leb price 0%float = false ->
  dict_get code wallets = Some source ->
  PrimFloat.ltb (wallet_balance source) amount = true ->
  Portfolio_sell_currency code amount price wallets
  = (TRaise (InsufficientFundsError code (wallet_balance source) amount),
     wallets).
Proof.
  intros Ha Hp Hs Hc.
  unfold Portfolio_sell_currency, Portfolio_get_wallet, dict_mem.
  now rewrite Ha, Hp, Hs, Hc.
Qed.

Lemma Portfolio_sell_currency_short_witness :
  Portfolio_sell_currency "BTC" 2%float 10%float
    [("BTC", mkWallet "BTC" 1%float)]
  = (TRaise (InsufficientFundsError "BTC" 1%float 2%float),
     [("BTC", mkWallet "BTC" 1%float)]).
Proof.
  apply (Portfolio_sell_currency_short "BTC" 2%float 10%float
           [("BTC", mkWallet "BTC" 1%float)] (mkWallet "BTC" 1%float));
    reflexivity.
Defined.

(** A sale without a USD wallet.  Even when the wallet holds enough,
    [sell_currency] raises [ValueError] when the portfolio has no USD
    wallet to receive the revenue, and nothing is withdrawn. *)
Theorem Portfolio_sell_currency_no_usd code amount price wallets source :
  PrimFloat.leb amount 0%float = false ->
  PrimFloat.leb price 0%float = false ->
  dict_get code wallets = Some source ->
  PrimFloat.ltb (wallet_balance source) amount = false ->
  dict_get "USD" wallets = None ->
  Portfolio_sell_currency code amount price wallets
  = (TRaise (Builtin ValueError), wallets).
Proof.
  intros Ha Hp Hs Hc Hu.
  unfold Portfolio_sell_currency, Portfolio_get_wallet, dict_mem.
  now rewrite Ha, Hp, Hs, Hc, Hu.
Qed.

Lemma Portfolio_sell_currency_no_usd_witness :
  Portfolio_sell_currency "BTC" 1%float 10%float
    [("BTC", mkWallet "BTC" 1%float)]
  = (TRaise (Builtin ValueError), [("BTC", mkWallet "BTC" 1%float)]).
Proof.
  apply (Portfolio_sell_currency_no_usd "BTC" 1%float 10%float
           [("BTC", mkWallet "BTC" 1%float)] (mkWallet "BTC" 1%float));
    reflexivity.
Defined.

Lemma total_value_fold_unknown_base base wallets total :
  dict_get base total_value_rates = None ->
  fold_left
    (fun total_value item =>
       match dict_get (fst item) total_value_rates,
             dict_get base total_value_rates with
       | Some rc, Some rb =>
           (total_value + wallet_balance (snd item) * (rc / rb))%float
       | _, _ => total_value
       end)
    wallets total = total.
Proof.
  intros Hb. revert total. induction wallets as [|item wallets IH]; intros total;
    cbn [fold_left]; [reflexivity|].
  rewrite IH, Hb. now destruct (dict_get (fst item) total_value_rates).
Qed.

(** The total value counts only the currencies of the built-in table:
    a wallet of any other currency adds nothing, whatever it holds, and
    for a base currency outside the table the total is 0.0. *)
Theorem Portfolio_get_total_value_table wallets base :
  Portfolio_get_total_value wallets base
  = Portfolio_get_total_value
      (filter (fun item => dict_mem (fst item) total_value_rates) wallets) base
  /\ (dict_get base total_value_rates = None ->
      Portfolio_get_total_value wallets base = 0%float).
Proof.
  split.
  - unfold Portfolio_get_total_value. generalize 0%float.
    induction wallets as [|item wallets IH]; intros total; cbn [fold_left filter];
      [reflexivity|].
    unfold dict_mem at 1.
    destruct (dict_get (fst item) total_value_rates) as [rc|] eqn:E.
    + cbn [fold_left]. rewrite E. apply IH.
    + apply IH.
  - intros Hb. now apply total_value_fold_unknown_base.
Qed.

Lemma Portfolio_get_total_value_table_witness :
  Portfolio_get_total_value
    [("USD", mkWallet "USD" 10%float); ("ETH", mkWallet "ETH" 5%float)] "GBP"
  = 0%float.
Proof.
  apply (proj2 (Portfolio_get_total_value_table
                  [("USD", mkWallet "USD" 10%float);
                   ("ETH", mkWallet "ETH" 5%float)] "GBP")).
  reflexivity.
Defined.
